(** * AgentPostgreSQL: the request pipeline of [app.py]

    A shallow embedding of the Flask application in [src/app.py]: schema
    introspection ([get_table_schemas]), prompt construction and the model
    call ([generate_sql]), query execution ([execute_query]) and the four
    request handlers ([query], [execute], [download], [schema_info]).

    The database driver, pandas' SQL reader and Excel writer, the model
    client and the temporary-directory allocator are collaborators of the
    program, not part of it: they are the fields of an [Environment], and
    every definition of the application is a function of the environment
    it runs in.  Each call of a collaborator either returns or raises. *)

From Stdlib Require Import String Ascii List ZArith Bool Lia DecimalString Permutation.
Import ListNotations.
Local Open Scope list_scope.
Local Open Scope string_scope.
Set Warnings "-register-all".

(** ** Python values, exceptions and results *)

(** Line feed and the double quote, as one-character strings. *)
Definition LF : string := String (ascii_of_nat 10) EmptyString.
Definition DQUOTE : string := String (ascii_of_nat 34) EmptyString.

(** The exceptions the program can meet.  All of them are subclasses of
    Python's [Exception], so [except Exception] catches each of them. *)
Inductive exn : Type :=
| Exception (message : string)        (* raised by a collaborator *)
| KeyError (key : string)             (* d[key] on a dict without key *)
| TypeError (message : string)        (* None[...] *)
| FileNotFoundError (path : string)   (* send_file on a missing file *)
| BadRequestKeyError (key : string).  (* request.form[key], key absent *)

(** [str(e)] *)
Definition str (e : exn) : string :=
  match e with
  | Exception m => m
  | KeyError k => "'" ++ k ++ "'"
  | TypeError m => m
  | FileNotFoundError p => "[Errno 2] No such file or directory: '" ++ p ++ "'"
  | BadRequestKeyError _ =>
      "400 Bad Request: The browser (or proxy) sent a request that this server could not understand."
  end.

(** A computation that returns a value or raises. *)
Inductive result (A : Type) : Type :=
| Ok (a : A)
| Raise (e : exn).
Arguments Ok {A} a.
Arguments Raise {A} e.

Definition bind {A B : Type} (m : result A) (k : A -> result B) : result B :=
  match m with
  | Ok a => k a
  | Raise e => Raise e
  end.

Notation "x <- m ;; k" := (bind m (fun x => k))
  (at level 61, m at next level, right associativity).

(** [try: body  except Exception as e: handler(e)] *)
Definition try_except {A : Type} (body : result A) (handler : exn -> A) : A :=
  match body with
  | Ok a => a
  | Raise e => handler e
  end.

(** The scalars a result set carries: [None], [bool], [int] and [str].
    Floats, decimals and dates are outside this embedding. *)
Inductive scalar : Type :=
| PNone
| PBool (b : bool)
| PInt (z : Z)
| PStr (s : string).

(** Truth value of an optional string, as [if error:] tests it: [None] and
    the empty string are false. *)
Definition truthy (o : option string) : bool :=
  match o with
  | None => false
  | Some s => negb (s =? "")
  end.

(** ** Python dictionaries

    A [dict] keeps its keys in insertion order and holds each key once;
    assigning to a key that is present replaces the value in place. *)
Module PyDict.

Definition t (V : Type) : Type := list (string * V).

Definition empty {V : Type} : t V := [].

Fixpoint get {V : Type} (d : t V) (k : string) : option V :=
  match d with
  | [] => None
  | (k', v) :: d' => if k' =? k then Some v else get d' k
  end.

(** [k in d] *)
Definition mem {V : Type} (d : t V) (k : string) : bool :=
  match get d k with
  | Some _ => true
  | None => false
  end.

(** [d[k]] *)
Definition getitem {V : Type} (d : t V) (k : string) : result V :=
  match get d k with
  | Some v => Ok v
  | None => Raise (KeyError k)
  end.

(** [d[k] = v] *)
Fixpoint set {V : Type} (d : t V) (k : string) (v : V) : t V :=
  match d with
  | [] => [(k, v)]
  | (k', v') :: d' =>
      if k' =? k then (k', v) :: d' else (k', v') :: set d' k v
  end.

(** [d.items()] and [d.keys()], in insertion order. *)
Definition items {V : Type} (d : t V) : list (string * V) := d.
Definition keys {V : Type} (d : t V) : list string := map fst d.

(** [dict(pairs)]: later pairs overwrite earlier ones with the same key. *)
Definition of_pairs {V : Type} (pairs : list (string * V)) : t V :=
  fold_left (fun d kv => set d (fst kv) (snd kv)) pairs empty.

End PyDict.

(** ** JSON bodies and responses *)

Inductive json : Type :=
| JNull
| JBool (b : bool)
| JNum (z : Z)
| JStr (s : string)
| JArr (elements : list json)
| JObj (members : list (string * json)).

(** The member of a JSON object under a key, when the body is an object
    that has it. *)
Definition member (j : json) (k : string) : option json :=
  match j with
  | JObj members => PyDict.get members k
  | _ => None
  end.

Definition has_member (j : json) (k : string) : bool :=
  match member j k with
  | Some _ => true
  | None => false
  end.

Definition json_of_scalar (v : scalar) : json :=
  match v with
  | PNone => JNull
  | PBool b => JBool b
  | PInt z => JNum z
  | PStr s => JStr s
  end.

Definition json_of_optstr (o : option string) : json :=
  match o with
  | None => JNull
  | Some s => JStr s
  end.

(** What a view function hands back to Flask. *)
Inductive response : Type :=
| JsonResponse (body : json)
| FileResponse (path : string) (mimetype : string) (as_attachment : bool)
               (download_name : string) (stream : string).

Definition jsonify (body : json) : response := JsonResponse body.

(** [request.form]: the submitted fields; [request.form[key]] is the first
    value of [key] and raises [BadRequestKeyError] when the field is
    absent. *)
Definition form_data : Type := list (string * string).

Definition form_getitem (form : form_data) (key : string) : result string :=
  match PyDict.get form key with
  | Some v => Ok v
  | None => Raise (BadRequestKeyError key)
  end.

(** ** pandas

    A [DataFrame] as the program uses it: column labels and rows of cells
    (the index is never written, [index=False]). *)
Record DataFrame : Type := {
  df_columns : list string;
  df_rows : list (list scalar)
}.

(** [df.to_dict('records')]: one [dict(zip(columns, row))] per row. *)
Definition to_dict_records (df : DataFrame) : list (PyDict.t scalar) :=
  map (fun row => PyDict.of_pairs (combine (df_columns df) row)) (df_rows df).

(** The column labels of [pd.DataFrame(data)] for a list of dicts: the keys
    of the dicts, each once, in order of first appearance.  An empty list
    has no dict to take a key from, so the frame has no column. *)
Definition add_label (labels : list string) (k : string) : list string :=
  if existsb (String.eqb k) labels then labels else (labels ++ [k])%list.

Definition labels_of_records (data : list (PyDict.t scalar)) : list string :=
  fold_left (fun labels record => fold_left add_label (PyDict.keys record) labels)
            data [].

(** [pd.DataFrame(data)]: a cell a dict has no key for is missing, and a
    missing cell is written like [None]. *)
Definition DataFrame_of_records (data : list (PyDict.t scalar)) : DataFrame :=
  let labels := labels_of_records data in
  {| df_columns := labels;
     df_rows :=
       map (fun record =>
              map (fun c => match PyDict.get record c with
                            | Some v => v
                            | None => PNone
                            end) labels)
           data |}.

(** The text of a cell in [to_csv]: a missing value is the empty string
    ([na_rep='']), any other value is written by [str]. *)
Definition cell_text (v : scalar) : string :=
  match v with
  | PNone => ""
  | PBool true => "True"
  | PBool false => "False"
  | PInt z => NilZero.string_of_int (Z.to_int z)
  | PStr s => s
  end.

(** The [csv] writer pandas drives ([QUOTE_MINIMAL], comma delimiter,
    double-quote character, line terminator LF): a field holding a delimiter, a
    quote or a line break is quoted and its quotes are doubled; a record of
    one empty field is written as a pair of quotes; a record of no field is
    an empty line. *)
Definition needs_quoting (c : ascii) : bool :=
  (Ascii.eqb c ","%char || Ascii.eqb c (ascii_of_nat 34) ||
   Ascii.eqb c (ascii_of_nat 10) || Ascii.eqb c (ascii_of_nat 13))%bool.

Fixpoint has_special (s : string) : bool :=
  match s with
  | EmptyString => false
  | String c s' => (needs_quoting c || has_special s')%bool
  end.

Fixpoint double_quotes (s : string) : string :=
  match s with
  | EmptyString => EmptyString
  | String c s' =>
      if Ascii.eqb c (ascii_of_nat 34)
      then String c (String c (double_quotes s'))
      else String c (double_quotes s')
  end.

Definition csv_field (s : string) : string :=
  if has_special s then DQUOTE ++ double_quotes s ++ DQUOTE else s.

Definition csv_writerow (fields : list string) : string :=
  match fields with
  | [EmptyString] => DQUOTE ++ DQUOTE ++ LF
  | _ => String.concat "," (map csv_field fields) ++ LF
  end.

(** The text [df.to_csv(path, index=False)] writes: the header record,
    then one record per row. *)
Definition to_csv_text (df : DataFrame) : string :=
  csv_writerow (df_columns df) ++
  String.concat "" (map (fun row => csv_writerow (map cell_text row)) (df_rows df)).

(** [os.path.join(a, b)] on POSIX. *)
Fixpoint ends_with_slash (a : string) : bool :=
  match a with
  | EmptyString => false
  | String c EmptyString => Ascii.eqb c "/"%char
  | String _ a' => ends_with_slash a'
  end.

Definition os_path_join (a b : string) : string :=
  match b with
  | String "/"%char _ => b
  | _ => if ((a =? "") || ends_with_slash a)%bool then a ++ b else a ++ "/" ++ b
  end.

(** ** The collaborators

    What the program is run against.  [psycopg2_connect] stands for
    [psycopg2.connect(host=PG_HOST, ...)] with the configured credentials;
    [cursor_execute] returns the cursor holding the statement's result;
    [pd_read_sql_query] is [pd.read_sql_query(sql, conn)];
    [generate_content] is [client.models.generate_content(model, contents)]
    and [response_text] the response's [.text]; [tempfile_mkdtemp] is
    [tempfile.mkdtemp()]; [excel_bytes] is the workbook [df.to_excel]
    writes.  A collaborator is a function of its arguments: the database
    and the model service are taken as they are during one request. *)
Record Environment : Type := {
  PG_DATABASE : string;
  connection : Type;
  cursor : Type;
  genai_response : Type;
  psycopg2_connect : result connection;
  conn_cursor : connection -> result cursor;
  cursor_execute : cursor -> string -> result cursor;
  cursor_fetchall : cursor -> result (list (string * string * string));
  conn_close : connection -> result unit;
  pd_read_sql_query : string -> connection -> result DataFrame;
  generate_content : string -> string -> result genai_response;
  response_text : genai_response -> result (option string);
  tempfile_mkdtemp : result string;
  excel_bytes : DataFrame -> result string
}.

(** ** The application *)

(** [{"columns": ..., "data": ...}], the dict [execute_query] builds. *)
Record query_results : Type := {
  columns : list string;
  data : list (PyDict.t scalar)
}.

Definition SchemaMap : Type := PyDict.t (list string).

(** The statement [get_table_schemas] sends to the catalog. *)
Definition catalog_query : string :=
  LF ++ "            SELECT table_name, column_name, data_type" ++
  LF ++ "            FROM information_schema.columns" ++
  LF ++ "            WHERE table_schema = 'public'" ++
  LF ++ "        ".

(** [f"{column} ({datatype})"] *)
Definition column_descriptor (column datatype : string) : string :=
  column ++ " (" ++ datatype ++ ")".

(** The body of the loop of [get_table_schemas], for one catalog row. *)
Definition collect_row (schema_info : SchemaMap) (row : string * string * string)
  : result SchemaMap :=
  let '(table, column, datatype) := row in
  let schema_info :=
    if negb (PyDict.mem schema_info table)
    then PyDict.set schema_info table []
    else schema_info in
  cols <- PyDict.getitem schema_info table ;;
  Ok (PyDict.set schema_info table (cols ++ [column_descriptor column datatype])%list).

Fixpoint collect_rows (schema_info : SchemaMap) (rows : list (string * string * string))
  : result SchemaMap :=
  match rows with
  | [] => Ok schema_info
  | row :: rest => s <- collect_row schema_info row ;; collect_rows s rest
  end.

(** The prompt of [generate_sql]: the schema block and the f-string. *)
Definition schema_text (schema_info : SchemaMap) : string :=
  String.concat LF
    (map (fun '(table, cols) => "Table " ++ table ++ ": " ++ String.concat ", " cols)
         (PyDict.items schema_info)).

Definition contents (schema_text user_query : string) : string :=
  LF ++ "            Based on the following database schema:" ++
  LF ++ "            " ++ schema_text ++
  LF ++ "            Convert this natural language query into an SQL query for a PostgreSQL database: "
     ++ user_query ++
  LF ++ "            Return as plaintext, query only, with no markdown formatting." ++
  LF ++ "            ".

Definition json_of_record (record : PyDict.t scalar) : json :=
  JObj (map (fun '(k, v) => (k, json_of_scalar v)) (PyDict.items record)).

Definition json_of_results (r : query_results) : json :=
  JObj [("columns", JArr (map JStr (columns r)));
        ("data", JArr (map json_of_record (data r)))].

(** The state the export steps of [download] run in: the object bound to
    [results] and the files written so far. *)
Record export_state : Type := {
  st_results : option query_results;
  st_files : PyDict.t string
}.

Definition M (A : Type) : Type := export_state -> result (A * export_state).

Definition ret {A : Type} (a : A) : M A := fun st => Ok (a, st).

Definition bindM {A B : Type} (m : M A) (k : A -> M B) : M B :=
  fun st => match m st with
            | Ok (a, st') => k a st'
            | Raise e => Raise e
            end.

Notation "x <~ m ;; k" := (bindM m (fun x => k))
  (at level 61, m at next level, right associativity).

Definition lift {A : Type} (r : result A) : M A :=
  fun st => match r with
            | Ok a => Ok (a, st)
            | Raise e => Raise e
            end.

(** [results['data']] *)
Definition results_data : M (list (PyDict.t scalar)) :=
  fun st => match st_results st with
            | Some r => Ok (data r, st)
            | None => Raise (TypeError "'NoneType' object is not subscriptable")
            end.

Definition write_file (path text : string) : M unit :=
  fun st => Ok (tt, {| st_results := st_results st;
                       st_files := PyDict.set (st_files st) path text |}).

(** [df.to_csv(file_path, index=False)] *)
Definition to_csv (df : DataFrame) (file_path : string) : M unit :=
  write_file file_path (to_csv_text df).

(** [send_file(file_path, mimetype=..., as_attachment=True, download_name=...)] *)
Definition send_file (file_path mimetype : string) (as_attachment : bool)
           (download_name : string) : M response :=
  fun st => match PyDict.get (st_files st) file_path with
            | Some bytes =>
                Ok (FileResponse file_path mimetype as_attachment download_name bytes, st)
            | None => Raise (FileNotFoundError file_path)
            end.

Definition xlsx_mimetype : string :=
  "application/vnd.openxmlformats-officedocument.spreadsheetml.sheet".

Section App.

Context (env : Environment).

Definition get_table_schemas : SchemaMap :=
  try_except
    (conn <- psycopg2_connect env ;;
     cur <- conn_cursor env conn ;;
     cur <- cursor_execute env cur catalog_query ;;
     rows <- cursor_fetchall env cur ;;
     schema_info <- collect_rows PyDict.empty rows ;;
     _ <- conn_close env conn ;;
     Ok schema_info)
    (fun e => PyDict.empty).

Definition generate_sql (user_query : string) : option string * option string :=
  let schema_info := get_table_schemas in
  let schema_text := schema_text schema_info in
  try_except
    (resp <- generate_content env "gemini-1.5-flash" (contents schema_text user_query) ;;
     text <- response_text env resp ;;
     Ok (text, None))
    (fun e =>
       let error_message := "Error generating SQL: " ++ str e in
       (None, Some error_message)).

Definition execute_query (sql_query : string) : option query_results * option string :=
  try_except
    (conn <- psycopg2_connect env ;;
     df <- pd_read_sql_query env sql_query conn ;;
     _ <- conn_close env conn ;;
     let results := {| columns := df_columns df; data := to_dict_records df |} in
     Ok (Some results, None))
    (fun e =>
       let error_message := "Error executing query: " ++ str e in
       (None, Some error_message)).

(** [POST /query] *)
Definition query (form : form_data) : result response :=
  user_input <- form_getitem form "user_input" ;;
  let '(sql_query, error) := generate_sql user_input in
  if truthy error
  then Ok (jsonify (JObj [("error", json_of_optstr error)]))
  else Ok (jsonify (JObj [("sql_query", json_of_optstr sql_query)])).

Definition json_of_optresults (results : option query_results) : json :=
  match results with
  | Some r => json_of_results r
  | None => JNull
  end.

(** [POST /execute] *)
Definition execute (form : form_data) : result response :=
  sql_query <- form_getitem form "sql_query" ;;
  let '(results, error) := execute_query sql_query in
  if truthy error
  then Ok (jsonify (JObj [("error", json_of_optstr error)]))
  else Ok (jsonify (JObj [("results", json_of_optresults results)])).

(** [df.to_excel(file_path, index=False)] *)
Definition to_excel (df : DataFrame) (file_path : string) : M unit :=
  bytes <~ lift (excel_bytes env df) ;;
  write_file file_path bytes.

(** The export steps of [download], from [pd.DataFrame(results['data'])]
    to [send_file]. *)
Definition export_results (file_type : string) : M response :=
  records <~ results_data ;;
  let df := DataFrame_of_records records in
  temp_dir <~ lift (tempfile_mkdtemp env) ;;
  target <~ (if file_type =? "csv"
             then
               let file_path := os_path_join temp_dir "query_results.csv" in
               _ <~ to_csv df file_path ;;
               let mimetype := "text/csv" in
               let filename := "query_results.csv" in
               ret (file_path, mimetype, filename)
             else
               let file_path := os_path_join temp_dir "query_results.xlsx" in
               _ <~ to_excel df file_path ;;
               let mimetype := xlsx_mimetype in
               let filename := "query_results.xlsx" in
               ret (file_path, mimetype, filename)) ;;
  let '(file_path, mimetype, filename) := target in
  send_file file_path mimetype true filename.

(** [POST /download] *)
Definition download (form : form_data) : result response :=
  sql_query <- form_getitem form "sql_query" ;;
  file_type <- form_getitem form "file_type" ;;
  let '(results, error) := execute_query sql_query in
  if truthy error
  then Ok (jsonify (JObj [("error", json_of_optstr error)]))
  else
    match export_results file_type
            {| st_results := results; st_files := PyDict.empty |} with
    | Ok (resp, _) => Ok resp
    | Raise e => Raise e
    end.

(** [GET /schema_info] *)
Definition schema_info : response :=
  let schema_info := get_table_schemas in
  let tables :=
    map (fun '(table_name, cols) =>
           JObj [("name", JStr table_name); ("columns", JArr (map JStr cols))])
        (PyDict.items schema_info) in
  jsonify (JObj [("database", JStr (PG_DATABASE env)); ("tables", JArr tables)]).

End App.

(** ** Reading a CSV text back

    Python's [csv.reader] with its default dialect, over the lines of a
    text: an unquoted field ends at a comma or at a line break; a quoted
    field runs to its closing quote, a doubled quote standing for one
    quote; an empty line is a record of no field.  [field] is the field
    being read and [fields] the fields of the record read so far. *)
Inductive reader_state : Type :=
| START_RECORD
| START_FIELD
| IN_FIELD
| IN_QUOTED_FIELD
| QUOTE_IN_QUOTED_FIELD
| EAT_CRNL.

Definition add_char (field : string) (c : ascii) : string :=
  field ++ String c EmptyString.

Definition is_LF (c : ascii) : bool := Ascii.eqb c (ascii_of_nat 10).
Definition is_CR (c : ascii) : bool := Ascii.eqb c (ascii_of_nat 13).
Definition is_quote (c : ascii) : bool := Ascii.eqb c (ascii_of_nat 34).
Definition is_delimiter (c : ascii) : bool := Ascii.eqb c ","%char.

(** A character met where a field is expected to start. *)
Definition start_field (fields : list string) (c : ascii)
  : option (list string) * (reader_state * string * list string) :=
  if is_LF c then (Some (fields ++ [""])%list, (START_RECORD, "", []))
  else if is_CR c then (None, (EAT_CRNL, "", (fields ++ [""])%list))
  else if is_quote c then (None, (IN_QUOTED_FIELD, "", fields))
  else if is_delimiter c then (None, (START_FIELD, "", (fields ++ [""])%list))
  else (None, (IN_FIELD, String c EmptyString, fields)).

(** A character met at the start of a line. *)
Definition start_record (c : ascii)
  : option (list string) * (reader_state * string * list string) :=
  if is_LF c then (Some [], (START_RECORD, "", []))
  else if is_CR c then (None, (EAT_CRNL, "", []))
  else start_field [] c.

(** One character: the record it completes, if any, and the state, field
    and fields the reader goes on with.  A carriage return ends a line; a
    line feed right after it belongs to the same line end. *)
Definition reader_step (st : reader_state) (field : string) (fields : list string)
           (c : ascii)
  : list (list string) * (reader_state * string * list string) :=
  match st with
  | START_RECORD =>
      let '(done, next) := start_record c in
      (match done with Some r => [r] | None => [] end, next)
  | START_FIELD =>
      let '(done, next) := start_field fields c in
      (match done with Some r => [r] | None => [] end, next)
  | IN_FIELD =>
      if is_LF c then ([(fields ++ [field])%list], (START_RECORD, "", []))
      else if is_CR c then ([], (EAT_CRNL, "", (fields ++ [field])%list))
      else if is_delimiter c then ([], (START_FIELD, "", (fields ++ [field])%list))
      else ([], (IN_FIELD, add_char field c, fields))
  | IN_QUOTED_FIELD =>
      if is_quote c then ([], (QUOTE_IN_QUOTED_FIELD, field, fields))
      else ([], (IN_QUOTED_FIELD, add_char field c, fields))
  | QUOTE_IN_QUOTED_FIELD =>
      if is_quote c then ([], (IN_QUOTED_FIELD, add_char field c, fields))
      else if is_delimiter c then ([], (START_FIELD, "", (fields ++ [field])%list))
      else if is_LF c then ([(fields ++ [field])%list], (START_RECORD, "", []))
      else if is_CR c then ([], (EAT_CRNL, "", (fields ++ [field])%list))
      else ([], (IN_FIELD, add_char field c, fields))
  | EAT_CRNL =>
      if is_LF c then ([fields], (START_RECORD, "", []))
      else
        let '(done, next) := start_record c in
        (fields :: match done with Some r => [r] | None => [] end, next)
  end.

(** The records left when the text ends. *)
Definition reader_finish (st : reader_state) (field : string) (fields : list string)
  : list (list string) :=
  match st with
  | START_RECORD => []
  | EAT_CRNL => [fields]
  | _ => [(fields ++ [field])%list]
  end.

Fixpoint csv_read (st : reader_state) (field : string) (fields : list string)
         (text : string) : list (list string) :=
  match text with
  | EmptyString => reader_finish st field fields
  | String c rest =>
      let '(done, (st', field', fields')) := reader_step st field fields c in
      (done ++ csv_read st' field' fields' rest)%list
  end.

Definition csv_reader (text : string) : list (list string) :=
  csv_read START_RECORD "" [] text.

(** ** The prompt, as the specification words it

    The three fixed pieces of the instruction template, and the schema
    block: one line [Table <name>: <col1 (type1)>, <col2 (type2)>, ...]
    per table, the lines joined by line feeds. *)
Definition prompt_head : string :=
  LF ++ "            Based on the following database schema:" ++
  LF ++ "            ".

Definition prompt_middle : string :=
  LF ++ "            Convert this natural language query into an SQL query for a PostgreSQL database: ".

Definition prompt_tail : string :=
  LF ++ "            Return as plaintext, query only, with no markdown formatting." ++
  LF ++ "            ".

Fixpoint spec_column_list (cols : list string) : string :=
  match cols with
  | [] => ""
  | [c] => c
  | c :: rest => c ++ ", " ++ spec_column_list rest
  end.

Definition spec_table_line (table : string) (cols : list string) : string :=
  "Table " ++ table ++ ": " ++ spec_column_list cols.

Fixpoint spec_schema_block (schema : list (string * list string)) : string :=
  match schema with
  | [] => ""
  | [(table, cols)] => spec_table_line table cols
  | (table, cols) :: rest =>
      spec_table_line table cols ++ LF ++ spec_schema_block rest
  end.

(** ** Ways a request can fail *)

(** The catalog fetch of [get_table_schemas] fails with [e]: one of its
    steps raises (connecting, opening the cursor, running the catalog
    query, fetching its rows, closing the connection). *)
Inductive catalog_failure (env : Environment) (e : exn) : Prop :=
| catalog_connect_fails :
    psycopg2_connect env = Raise e -> catalog_failure env e
| catalog_cursor_fails conn :
    psycopg2_connect env = Ok conn ->
    conn_cursor env conn = Raise e -> catalog_failure env e
| catalog_execute_fails conn cur :
    psycopg2_connect env = Ok conn ->
    conn_cursor env conn = Ok cur ->
    cursor_execute env cur catalog_query = Raise e -> catalog_failure env e
| catalog_fetchall_fails conn cur cur' :
    psycopg2_connect env = Ok conn ->
    conn_cursor env conn = Ok cur ->
    cursor_execute env cur catalog_query = Ok cur' ->
    cursor_fetchall env cur' = Raise e -> catalog_failure env e
| catalog_close_fails conn cur cur' rows :
    psycopg2_connect env = Ok conn ->
    conn_cursor env conn = Ok cur ->
    cursor_execute env cur catalog_query = Ok cur' ->
    cursor_fetchall env cur' = Ok rows ->
    conn_close env conn = Raise e -> catalog_failure env e.

(** Running [sql] fails with [e]: the connection cannot be established,
    the statement is refused (syntax, unknown object, constraint), or the
    connection fails to close. *)
Inductive execution_failure (env : Environment) (sql : string) (e : exn) : Prop :=
| execution_connect_fails :
    psycopg2_connect env = Raise e -> execution_failure env sql e
| execution_statement_fails conn :
    psycopg2_connect env = Ok conn ->
    pd_read_sql_query env sql conn = Raise e -> execution_failure env sql e
| execution_close_fails conn df :
    psycopg2_connect env = Ok conn ->
    pd_read_sql_query env sql conn = Ok df ->
    conn_close env conn = Raise e -> execution_failure env sql e.

(** The model call on [prompt] fails with [e]: the request raises, or
    reading the text of the response does. *)
Inductive translation_failure (env : Environment) (prompt : string) (e : exn) : Prop :=
| translation_call_fails :
    generate_content env "gemini-1.5-flash" prompt = Raise e ->
    translation_failure env prompt e
| translation_text_fails resp :
    generate_content env "gemini-1.5-flash" prompt = Ok resp ->
    response_text env resp = Raise e ->
    translation_failure env prompt e.

(** ** The catalog, read by table *)

Definition table_of (row : string * string * string) : string :=
  let '(table, _, _) := row in table.

Definition descriptor_of (row : string * string * string) : string :=
  let '(_, column, datatype) := row in column_descriptor column datatype.

(** The descriptors of the catalog rows of table [t], in the order the
    catalog query yields them. *)
Definition catalog_columns (rows : list (string * string * string)) (t : string)
  : list string :=
  map descriptor_of (filter (fun row => table_of row =? t) rows).

(** The descriptors a schema map holds for table [t] so far. *)
Definition known_columns (d : SchemaMap) (t : string) : list string :=
  match PyDict.get d t with
  | Some cols => cols
  | None => []
  end.

(** One entry of the [tables] list of [/schema_info]. *)
Definition table_entry (name : string) (cols : list string) : json :=
  JObj [("name", JStr name); ("columns", JArr (map JStr cols))].

(** ** Sample environments *)

Definition sample_catalog : list (string * string * string) :=
  [("customers", "id", "int"); ("customers", "name", "text");
   ("orders", "id", "int"); ("orders", "customer_id", "int")].

(** A database holding [customers(id int, name text)] and
    [orders(id int, customer_id int)], and a model that answers. *)
Definition sample_env : Environment := {|
  PG_DATABASE := "my_local_db";
  connection := unit;
  cursor := list (string * string * string);
  genai_response := string;
  psycopg2_connect := Ok tt;
  conn_cursor := fun _ => Ok [];
  cursor_execute := fun _ sql =>
    if sql =? catalog_query then Ok sample_catalog
    else Raise (Exception "syntax error");
  cursor_fetchall := fun cur => Ok cur;
  conn_close := fun _ => Ok tt;
  pd_read_sql_query := fun sql _ =>
    if sql =? "SELECT 1 AS x"
    then Ok {| df_columns := ["x"]; df_rows := [[PInt 1]] |}
    else if sql =? "SELECT 1 AS x WHERE false"
    then Ok {| df_columns := ["x"]; df_rows := [] |}
    else Raise (Exception ("Execution failed on sql '" ++ sql ++ "': syntax error"));
  generate_content := fun _ _ => Ok "SELECT * FROM customers;";
  response_text := fun text => Ok (Some text);
  tempfile_mkdtemp := Ok "/tmp/tmpk3v9x2ab";
  excel_bytes := fun _ => Ok "PK"
|}.

(** No database to connect to, and a model service that refuses. *)
Definition offline_env : Environment := {|
  PG_DATABASE := "my_local_db";
  connection := unit;
  cursor := unit;
  genai_response := string;
  psycopg2_connect := Raise (Exception "connection refused");
  conn_cursor := fun _ => Ok tt;
  cursor_execute := fun _ _ => Ok tt;
  cursor_fetchall := fun _ => Ok [];
  conn_close := fun _ => Ok tt;
  pd_read_sql_query := fun _ _ => Ok {| df_columns := []; df_rows := [] |};
  generate_content := fun _ _ => Raise (Exception "API key not valid");
  response_text := fun text => Ok (Some text);
  tempfile_mkdtemp := Ok "/tmp/tmpk3v9x2ab";
  excel_bytes := fun _ => Ok "PK"
|}.

(** ** The database calls of a request

    The same bodies as [get_table_schemas] and [execute_query], with the
    calls they make on the driver recorded in order: a call is recorded
    when it is made, whether it returns or raises, and a raise ends the
    body. *)
Inductive db_call : Type :=
| CONNECT
| CURSOR
| EXECUTE (sql : string)
| FETCHALL
| READ_SQL (sql : string)
| CLOSE.

Definition traced (A : Type) : Type := (list db_call * result A)%type.

Definition call {A : Type} (c : db_call) (outcome : result A) : traced A :=
  ([c], outcome).

Definition local {A : Type} (outcome : result A) : traced A := ([], outcome).

Definition bindT {A B : Type} (m : traced A) (k : A -> traced B) : traced B :=
  match m with
  | (log, Ok a) => let '(log', r) := k a in ((log ++ log')%list, r)
  | (log, Raise e) => (log, Raise e)
  end.

Notation "x <@ m ;; k" := (bindT m (fun x => k))
  (at level 61, m at next level, right associativity).

(** The [try] body of [get_table_schemas]. *)
Definition get_table_schemas_calls (env : Environment) : traced SchemaMap :=
  conn <@ call CONNECT (psycopg2_connect env) ;;
  cur <@ call CURSOR (conn_cursor env conn) ;;
  cur <@ call (EXECUTE catalog_query) (cursor_execute env cur catalog_query) ;;
  rows <@ call FETCHALL (cursor_fetchall env cur) ;;
  schema_info <@ local (collect_rows PyDict.empty rows) ;;
  _ <@ call CLOSE (conn_close env conn) ;;
  local (Ok schema_info).

(** The [try] body of [execute_query]. *)
Definition execute_query_calls (env : Environment) (sql_query : string)
  : traced (option query_results * option string) :=
  conn <@ call CONNECT (psycopg2_connect env) ;;
  df <@ call (READ_SQL sql_query) (pd_read_sql_query env sql_query conn) ;;
  _ <@ call CLOSE (conn_close env conn) ;;
  let results := {| columns := df_columns df; data := to_dict_records df |} in
  local (Ok (Some results, None)).

(** ** The tables of a catalog, each once, in order of first appearance *)
Fixpoint first_occurrences (l : list string) : list string :=
  match l with
  | [] => []
  | x :: l' => x :: filter (fun y => negb (x =? y)) (first_occurrences l')
  end.

(** ** The page's script: [truncateText]

    [text.length > maxLength ? text.substring(0, maxLength) + '...' : text],
    on a string as the sequence of its code units and an integer
    [maxLength]; [substring] takes a negative end for zero and an end past
    the text for its length. *)
Section Script.

Variable code_unit : Type.
Variable full_stop : code_unit.

Definition truncateText (text : list code_unit) (maxLength : Z) : list code_unit :=
  if (Z.of_nat (length text) >? maxLength)%Z
  then (firstn (Z.to_nat maxLength) text ++ [full_stop; full_stop; full_stop])%list
  else text.

End Script.

Arguments truncateText {code_unit} full_stop text maxLength.

(** ** More sample environments *)

(** A database user who may connect but not read the catalog or run the
    statement, and a host without a usable temporary directory. *)
Definition restricted_env : Environment := {|
  PG_DATABASE := "my_local_db";
  connection := unit;
  cursor := unit;
  genai_response := string;
  psycopg2_connect := Ok tt;
  conn_cursor := fun _ => Ok tt;
  cursor_execute := fun _ _ => Raise (Exception "permission denied");
  cursor_fetchall := fun _ => Ok [];
  conn_close := fun _ => Ok tt;
  pd_read_sql_query := fun _ _ => Raise (Exception "permission denied");
  generate_content := fun _ _ => Ok "SELECT 1;";
  response_text := fun text => Ok (Some text);
  tempfile_mkdtemp := Raise (Exception "No usable temporary directory found");
  excel_bytes := fun _ => Ok "PK"
|}.

(** A database with no table in its public schema, whose statements
    return two columns under the same label, on a host where the workbook
    writer is missing. *)
Definition bare_env : Environment := {|
  PG_DATABASE := "my_local_db";
  connection := unit;
  cursor := unit;
  genai_response := string;
  psycopg2_connect := Ok tt;
  conn_cursor := fun _ => Ok tt;
  cursor_execute := fun _ _ => Ok tt;
  cursor_fetchall := fun _ => Ok [];
  conn_close := fun _ => Ok tt;
  pd_read_sql_query := fun _ _ =>
    Ok {| df_columns := ["x"; "x"]; df_rows := [[PInt 1; PInt 2]] |};
  generate_content := fun _ _ => Ok "SELECT 1;";
  response_text := fun text => Ok (Some text);
  tempfile_mkdtemp := Ok "/tmp/tmpk3v9x2ab";
  excel_bytes := fun _ => Raise (Exception "No module named 'openpyxl'")
|}.

(** The sample database on a host whose temporary directory cannot be
    created. *)
Definition full_disk_env : Environment := {|
  PG_DATABASE := PG_DATABASE sample_env;
  connection := connection sample_env;
  cursor := cursor sample_env;
  genai_response := genai_response sample_env;
  psycopg2_connect := psycopg2_connect sample_env;
  conn_cursor := conn_cursor sample_env;
  cursor_execute := cursor_execute sample_env;
  cursor_fetchall := cursor_fetchall sample_env;
  conn_close := conn_close sample_env;
  pd_read_sql_query := pd_read_sql_query sample_env;
  generate_content := generate_content sample_env;
  response_text := response_text sample_env;
  tempfile_mkdtemp := Raise (Exception "No usable temporary directory found");
  excel_bytes := excel_bytes sample_env
|}.

(** A catalog that yields the rows of two tables interleaved. *)
Definition interleaved_catalog : list (string * string * string) :=
  [("orders", "id", "int"); ("customers", "id", "int");
   ("orders", "customer_id", "int"); ("customers", "name", "text")].

Definition interleaved_env : Environment := {|
  PG_DATABASE := PG_DATABASE sample_env;
  connection := connection sample_env;
  cursor := cursor sample_env;
  genai_response := genai_response sample_env;
  psycopg2_connect := psycopg2_connect sample_env;
  conn_cursor := conn_cursor sample_env;
  cursor_execute := fun _ _ => Ok interleaved_catalog;
  cursor_fetchall := cursor_fetchall sample_env;
  conn_close := conn_close sample_env;
  pd_read_sql_query := pd_read_sql_query sample_env;
  generate_content := generate_content sample_env;
  response_text := response_text sample_env;
  tempfile_mkdtemp := tempfile_mkdtemp sample_env;
  excel_bytes := excel_bytes sample_env
|}.

(** * Properties *)

(** Run one step of a monadic body whose outcome [H] gives. *)
Tactic Notation "step" open_constr(H) := rewrite H; simpl.

(** ** Dictionaries *)

Lemma get_set_same {V : Type} (d : PyDict.t V) (k : string) (v : V) :
  PyDict.get (PyDict.set d k v) k = Some v.
Proof.
  induction d as [|[k' v'] d IH]; simpl.
  - now rewrite String.eqb_refl.
  - destruct (k' =? k) eqn:E; simpl; rewrite E; auto.
Qed.

Lemma get_set_other {V : Type} (d : PyDict.t V) (k k' : string) (v : V) :
  k <> k' -> PyDict.get (PyDict.set d k v) k' = PyDict.get d k'.
Proof.
  intros Hne. induction d as [|[k0 v0] d IH]; simpl.
  - destruct (k =? k') eqn:E; auto. apply String.eqb_eq in E. contradiction.
  - destruct (k0 =? k) eqn:E; simpl.
    + apply String.eqb_eq in E. subst k0.
      destruct (k =? k') eqn:E'; auto.
      apply String.eqb_eq in E'. contradiction.
    + destruct (k0 =? k'); auto.
Qed.

Lemma set_set_same {V : Type} (d : PyDict.t V) (k : string) (v w : V) :
  PyDict.set (PyDict.set d k v) k w = PyDict.set d k w.
Proof.
  induction d as [|[k' v'] d IH]; simpl.
  - now rewrite String.eqb_refl.
  - destruct (k' =? k) eqn:E; simpl; rewrite E; auto. now rewrite IH.
Qed.

Lemma get_In {V : Type} (d : PyDict.t V) (k : string) (v : V) :
  PyDict.get d k = Some v -> In (k, v) d.
Proof.
  induction d as [|[k' v'] d IH]; simpl; [discriminate|].
  destruct (k' =? k) eqn:E; intros H.
  - apply String.eqb_eq in E. injection H as ->. subst. now left.
  - right. auto.
Qed.

Lemma get_None_keys {V : Type} (d : PyDict.t V) (k : string) :
  PyDict.get d k = None <-> ~ In k (PyDict.keys d).
Proof.
  induction d as [|[k' v'] d IH]; simpl.
  - split; auto.
  - destruct (k' =? k) eqn:E.
    + apply String.eqb_eq in E. split; [discriminate|]. intros H. exfalso. auto.
    + apply String.eqb_neq in E. rewrite IH. split; intros H; [intros [?|?]|]; auto.
Qed.

Lemma In_get {V : Type} (d : PyDict.t V) (k : string) (v : V) :
  NoDup (PyDict.keys d) -> In (k, v) d -> PyDict.get d k = Some v.
Proof.
  induction d as [|[k' v'] d IH]; simpl; [contradiction|].
  intros Hnd [H|H]; inversion Hnd as [|? ? Hnotin Hnd']; subst.
  - injection H as -> ->. now rewrite String.eqb_refl.
  - destruct (k' =? k) eqn:E; auto.
    apply String.eqb_eq in E. subst k'.
    exfalso. apply Hnotin. change k with (fst (k, v)). now apply in_map.
Qed.

Lemma keys_set {V : Type} (d : PyDict.t V) (k : string) (v : V) :
  PyDict.keys (PyDict.set d k v) =
  if PyDict.mem d k then PyDict.keys d else (PyDict.keys d ++ [k])%list.
Proof.
  unfold PyDict.mem, PyDict.keys.
  induction d as [|[k' v'] d IH]; simpl; auto.
  destruct (k' =? k) eqn:E; simpl; auto.
  rewrite IH. now destruct (PyDict.get d k).
Qed.

Lemma NoDup_keys_set {V : Type} (d : PyDict.t V) (k : string) (v : V) :
  NoDup (PyDict.keys d) -> NoDup (PyDict.keys (PyDict.set d k v)).
Proof.
  intros Hnd. rewrite keys_set. unfold PyDict.mem.
  destruct (PyDict.get d k) eqn:E; auto.
  apply get_None_keys in E.
  apply NoDup_app; auto.
  - repeat constructor. simpl. tauto.
  - intros x Hx [<-|[]]. contradiction.
Qed.

(** A dict built from pairs with distinct keys holds exactly these pairs,
    in their order. *)
Lemma fold_set_fresh {V : Type} (pairs : list (string * V)) (d : PyDict.t V) :
  NoDup (PyDict.keys d ++ map fst pairs) ->
  fold_left (fun d kv => PyDict.set d (fst kv) (snd kv)) pairs d = (d ++ pairs)%list.
Proof.
  revert d. induction pairs as [|[k v] pairs IH]; intros d Hnd; simpl.
  - now rewrite app_nil_r.
  - assert (Hfresh : PyDict.set d k v = (d ++ [(k, v)])%list).
    { clear IH. induction d as [|[k' v'] d IHd]; simpl; auto.
      simpl in Hnd. inversion Hnd as [|? ? Hnotin Hnd']; subst.
      destruct (k' =? k) eqn:E.
      - apply String.eqb_eq in E. subst k'. exfalso. apply Hnotin.
        apply in_or_app. right. now left.
      - f_equal. auto. }
    rewrite Hfresh, IH.
    + now rewrite <- app_assoc.
    + unfold PyDict.keys in *. step map_app.
      now rewrite <- app_assoc.
Qed.

Lemma of_pairs_distinct {V : Type} (pairs : list (string * V)) :
  NoDup (map fst pairs) -> PyDict.of_pairs pairs = pairs.
Proof.
  intros Hnd. unfold PyDict.of_pairs, PyDict.empty.
  now rewrite fold_set_fresh.
Qed.

Lemma keys_fold_set {V : Type} (pairs : list (string * V)) (d : PyDict.t V) (k : string) :
  In k (PyDict.keys (fold_left (fun d kv => PyDict.set d (fst kv) (snd kv)) pairs d)) ->
  In k (PyDict.keys d) \/ In k (map fst pairs).
Proof.
  revert d. induction pairs as [|[k' v] pairs IH]; intros d; simpl; auto.
  intros H. apply IH in H. destruct H as [H|H]; auto.
  rewrite keys_set in H. destruct (PyDict.mem d k'); auto.
  apply in_app_or in H. destruct H as [H|[H|[]]]; auto.
Qed.

Lemma mem_In_keys {V : Type} (d : PyDict.t V) (k : string) :
  PyDict.mem d k = true <-> In k (PyDict.keys d).
Proof.
  unfold PyDict.mem. destruct (PyDict.get d k) eqn:E.
  - split; auto. intros _. apply get_In in E.
    change k with (fst (k, v)). now apply in_map.
  - apply get_None_keys in E. split; [discriminate|contradiction].
Qed.

(** ** The schema inspector *)

(** One catalog row appends its descriptor to the entry of its table,
    creating the entry when the table is new; the lookup never raises. *)
Lemma collect_row_appends (d : SchemaMap) (table column datatype : string) :
  collect_row d (table, column, datatype) =
  Ok (PyDict.set d table (known_columns d table ++ [column_descriptor column datatype])%list).
Proof.
  unfold collect_row, known_columns, PyDict.mem, PyDict.getitem.
  destruct (PyDict.get d table) as [cols|] eqn:E; simpl.
  - now rewrite E.
  - step get_set_same. now rewrite set_set_same.
Qed.

Lemma no_row_no_column (rows : list (string * string * string)) (t : string) :
  existsb (fun row => table_of row =? t) rows = false -> catalog_columns rows t = [].
Proof.
  unfold catalog_columns. induction rows as [|row rows IH]; simpl; auto.
  intros H. apply orb_false_iff in H. destruct H as [H1 H2].
  rewrite H1. auto.
Qed.

(** The loop over the catalog rows returns, and groups the descriptors by
    table in the order of the rows. *)
Lemma collect_rows_groups (rows : list (string * string * string)) :
  forall d : SchemaMap,
  exists d',
    collect_rows d rows = Ok d' /\
    (NoDup (PyDict.keys d) -> NoDup (PyDict.keys d')) /\
    forall t,
      PyDict.get d' t =
      if existsb (fun row => table_of row =? t) rows
      then Some (known_columns d t ++ catalog_columns rows t)%list
      else PyDict.get d t.
Proof.
  induction rows as [|[[table column] datatype] rows IH]; intros d.
  - exists d. simpl. auto.
  - cbn [collect_rows]. rewrite collect_row_appends. cbn [bind].
    destruct (IH (PyDict.set d table
                    (known_columns d table ++ [column_descriptor column datatype])%list))
      as (d' & Hrun & Hnd & Hget).
    exists d'. split; [exact Hrun|]. split.
    + intros H. apply Hnd. now apply NoDup_keys_set.
    + intros t. rewrite Hget. unfold catalog_columns. simpl.
      destruct (table =? t) eqn:E.
      * apply String.eqb_eq in E. subst t. simpl.
        unfold known_columns at 1. rewrite !get_set_same.
        destruct (existsb _ rows) eqn:Ex.
        -- now rewrite <- app_assoc.
        -- apply no_row_no_column in Ex. unfold catalog_columns in Ex.
           now rewrite Ex.
      * apply String.eqb_neq in E. simpl.
        unfold known_columns at 1. rewrite !get_set_other by assumption.
        reflexivity.
Qed.

Lemma existsb_table_In (rows : list (string * string * string)) (t : string) :
  existsb (fun row => table_of row =? t) rows = true <-> In t (map table_of rows).
Proof.
  rewrite existsb_exists, in_map_iff. split.
  - intros (row & Hin & E). apply String.eqb_eq in E. eauto.
  - intros (row & E & Hin). exists row. split; auto. now apply String.eqb_eq.
Qed.

(** When every step of the catalog fetch succeeds, the schema map holds,
    for each table of the catalog, its descriptors in catalog order, and
    nothing else. *)
Lemma get_table_schemas_groups (env : Environment) conn cur cur' rows :
  psycopg2_connect env = Ok conn ->
  conn_cursor env conn = Ok cur ->
  cursor_execute env cur catalog_query = Ok cur' ->
  cursor_fetchall env cur' = Ok rows ->
  conn_close env conn = Ok tt ->
  NoDup (PyDict.keys (get_table_schemas env)) /\
  forall t,
    PyDict.get (get_table_schemas env) t =
    if existsb (fun row => table_of row =? t) rows
    then Some (catalog_columns rows t)
    else None.
Proof.
  intros Hc Hcur Hex Hf Hcl. unfold get_table_schemas.
  step Hc. step Hcur. step Hex. step Hf.
  destruct (collect_rows_groups rows PyDict.empty) as (d' & Hrun & Hnd & Hget).
  step Hrun. step Hcl. split.
  - apply Hnd. constructor.
  - intros t. rewrite Hget. reflexivity.
Qed.

(** Any failure of the catalog fetch leaves the caller with the empty
    schema map. *)
Lemma get_table_schemas_swallows (env : Environment) (e : exn) :
  catalog_failure env e -> get_table_schemas env = PyDict.empty.
Proof.
  intros [H | conn H1 H | conn cur H1 H2 H | conn cur cur' H1 H2 H3 H
          | conn cur cur' rows H1 H2 H3 H4 H];
    unfold get_table_schemas.
  - now rewrite H.
  - step H1. now rewrite H.
  - step H1. step H2. now rewrite H.
  - step H1. step H2. step H3. now rewrite H.
  - step H1. step H2. step H3. step H4.
    destruct (collect_rows_groups rows PyDict.empty) as (d' & Hrun & _).
    step Hrun. now rewrite H.
Qed.

(** C4. Whatever step of the catalog fetch fails (connecting, opening the
    cursor, running the catalog query, fetching, closing), the schema
    inspector returns the empty schema map, and [/schema_info] answers
    with a JSON body that names the database, lists no table and has no
    [error] member. *)
Theorem schema_failure_degrades_to_empty (env : Environment) (e : exn) :
  catalog_failure env e ->
  get_table_schemas env = PyDict.empty /\
  schema_info env =
    jsonify (JObj [("database", JStr (PG_DATABASE env)); ("tables", JArr [])]) /\
  (forall body, schema_info env = JsonResponse body -> has_member body "error" = false).
Proof.
  intros Hfail. pose proof (get_table_schemas_swallows env e Hfail) as Hempty.
  split; [exact Hempty|].
  assert (Hresp : schema_info env =
            jsonify (JObj [("database", JStr (PG_DATABASE env)); ("tables", JArr [])])).
  { unfold schema_info. rewrite Hempty. reflexivity. }
  split; [exact Hresp|].
  intros body Hbody. rewrite Hresp in Hbody. unfold jsonify in Hbody.
  injection Hbody as <-. reflexivity.
Qed.

Lemma schema_failure_degrades_to_empty_witness :
  catalog_failure offline_env (Exception "connection refused") /\
  get_table_schemas offline_env = PyDict.empty /\
  schema_info offline_env =
    jsonify (JObj [("database", JStr "my_local_db"); ("tables", JArr [])]).
Proof.
  assert (H : catalog_failure offline_env (Exception "connection refused"))
    by (apply catalog_connect_fails; reflexivity).
  split; [exact H|].
  destruct (schema_failure_degrades_to_empty offline_env _ H) as (H1 & H2 & _).
  split; [exact H1|exact H2].
Defined.

(** C8. When the catalog fetch succeeds with [rows], [/schema_info] lists
    every table of the catalog with its column descriptors in the order
    the catalog query yielded them, and every listed entry is such a
    table with exactly these descriptors. *)
Theorem schema_info_keeps_catalog_order (env : Environment) conn cur cur' rows :
  psycopg2_connect env = Ok conn ->
  conn_cursor env conn = Ok cur ->
  cursor_execute env cur catalog_query = Ok cur' ->
  cursor_fetchall env cur' = Ok rows ->
  conn_close env conn = Ok tt ->
  exists tables,
    schema_info env =
      jsonify (JObj [("database", JStr (PG_DATABASE env)); ("tables", JArr tables)]) /\
    (forall t, In t (map table_of rows) ->
               In (table_entry t (catalog_columns rows t)) tables) /\
    (forall name cols, In (table_entry name cols) tables ->
                       In name (map table_of rows) /\ cols = catalog_columns rows name).
Proof.
  intros Hc Hcur Hex Hf Hcl.
  destruct (get_table_schemas_groups env conn cur cur' rows Hc Hcur Hex Hf Hcl)
    as [Hnd Hget].
  unfold schema_info. eexists. split; [reflexivity|]. split.
  - intros t Ht. apply existsb_table_In in Ht.
    specialize (Hget t). rewrite Ht in Hget. apply get_In in Hget.
    apply in_map_iff. exists (t, catalog_columns rows t). split; auto.
  - intros name cols Hin. apply in_map_iff in Hin.
    destruct Hin as ([name' cols'] & Heq & Hin).
    unfold table_entry in Heq. injection Heq as Hname Hcols.
    subst name'.
    assert (cols' = cols).
    { clear - Hcols. revert cols Hcols.
      induction cols' as [|c cs IH]; intros [|c' cs']; simpl; try discriminate; auto.
      intros H. injection H as -> H. f_equal. auto. }
    subst cols'.
    apply In_get in Hin; [|exact Hnd].
    rewrite Hget in Hin.
    destruct (existsb _ rows) eqn:Ex; [|discriminate].
    apply existsb_table_In in Ex. injection Hin as <-. auto.
Qed.

Lemma schema_info_keeps_catalog_order_witness :
  exists tables,
    schema_info sample_env =
      jsonify (JObj [("database", JStr "my_local_db"); ("tables", JArr tables)]) /\
    In (table_entry "customers" ["id (int)"; "name (text)"]) tables /\
    In (table_entry "orders" ["id (int)"; "customer_id (int)"]) tables.
Proof.
  destruct (schema_info_keeps_catalog_order sample_env tt [] sample_catalog sample_catalog
              eq_refl eq_refl eq_refl eq_refl eq_refl) as (tables & Hresp & Hall & _).
  exists tables. split; [exact Hresp|]. split.
  - apply (Hall "customers"). simpl. auto.
  - apply (Hall "orders"). simpl. auto.
Defined.

(** ** The handlers: missing fields, translation, execution *)

(** A message that starts with a fixed, non-empty prefix is true. *)
Lemma truthy_generation_error (m : string) :
  truthy (Some ("Error generating SQL: " ++ m)) = true.
Proof. reflexivity. Qed.

Lemma truthy_execution_error (m : string) :
  truthy (Some ("Error executing query: " ++ m)) = true.
Proof. reflexivity. Qed.

Lemma form_getitem_absent (form : form_data) (key : string) :
  PyDict.get form key = None ->
  form_getitem form key = Raise (BadRequestKeyError key).
Proof. unfold form_getitem. now intros ->. Qed.

(** C9. A POST that omits a required field makes the field lookup raise
    [BadRequestKeyError]: the handler raises, and returns no response at
    all, structured or not.  [/query] needs [user_input], [/execute] needs
    [sql_query], [/download] needs [sql_query] and [file_type]. *)
Theorem missing_field_raises (env : Environment) (form : form_data) :
  (PyDict.get form "user_input" = None ->
   query env form = Raise (BadRequestKeyError "user_input")) /\
  (PyDict.get form "sql_query" = None ->
   execute env form = Raise (BadRequestKeyError "sql_query") /\
   download env form = Raise (BadRequestKeyError "sql_query")) /\
  (PyDict.get form "sql_query" <> None ->
   PyDict.get form "file_type" = None ->
   download env form = Raise (BadRequestKeyError "file_type")).
Proof.
  split; [|split].
  - intros H. unfold query. now rewrite (form_getitem_absent _ _ H).
  - intros H. unfold execute, download.
    now rewrite (form_getitem_absent _ _ H).
  - intros Hsql Hft. unfold download.
    rewrite (form_getitem_absent _ _ Hft).
    unfold form_getitem at 1.
    destruct (PyDict.get form "sql_query"); [reflexivity|contradiction].
Qed.

Lemma missing_field_raises_witness :
  query sample_env [] = Raise (BadRequestKeyError "user_input") /\
  execute sample_env [("file_type", "csv")] = Raise (BadRequestKeyError "sql_query") /\
  download sample_env [("file_type", "csv")] = Raise (BadRequestKeyError "sql_query") /\
  download sample_env [("sql_query", "SELECT 1 AS x")] =
    Raise (BadRequestKeyError "file_type").
Proof.
  split; [|split; [|split]].
  - apply (missing_field_raises sample_env []). reflexivity.
  - apply (missing_field_raises sample_env [("file_type", "csv")]). reflexivity.
  - apply (missing_field_raises sample_env [("file_type", "csv")]). reflexivity.
  - apply (missing_field_raises sample_env [("sql_query", "SELECT 1 AS x")]).
    + discriminate.
    + reflexivity.
Defined.

(** What [generate_sql] returns, by the outcome of the model call. *)
Lemma generate_sql_success (env : Environment) (user_query : string) resp text :
  generate_content env "gemini-1.5-flash"
    (contents (schema_text (get_table_schemas env)) user_query) = Ok resp ->
  response_text env resp = Ok text ->
  generate_sql env user_query = (text, None).
Proof.
  intros H1 H2. unfold generate_sql. cbv zeta. step H1. now rewrite H2.
Qed.

Lemma generate_sql_failure (env : Environment) (user_query : string) (e : exn) :
  translation_failure env
    (contents (schema_text (get_table_schemas env)) user_query) e ->
  generate_sql env user_query = (None, Some ("Error generating SQL: " ++ str e)).
Proof.
  intros [H | resp H1 H]; unfold generate_sql; cbv zeta.
  - now rewrite H.
  - step H1. now rewrite H.
Qed.

(** The model call either yields a text or fails. *)
Lemma translation_outcome (env : Environment) (prompt : string) :
  (exists resp text,
      generate_content env "gemini-1.5-flash" prompt = Ok resp /\
      response_text env resp = Ok text) \/
  (exists e, translation_failure env prompt e).
Proof.
  destruct (generate_content env "gemini-1.5-flash" prompt) as [resp|e] eqn:H1.
  - destruct (response_text env resp) as [text|e] eqn:H2.
    + left. eauto.
    + right. exists e. eapply translation_text_fails; eauto.
  - right. exists e. now apply translation_call_fails.
Qed.

(** C3. For every submitted question, [/query] answers with a JSON object
    of exactly one member: [sql_query], holding the text of the model's
    response, when the translation succeeds, and [error], holding the
    message of the failure, when it fails.  No response has both. *)
Theorem query_sql_or_error (env : Environment) (form : form_data) (user_input : string) :
  form_getitem form "user_input" = Ok user_input ->
  exists body,
    query env form = Ok (jsonify body) /\
    has_member body "sql_query" = negb (has_member body "error") /\
    (forall resp text,
        generate_content env "gemini-1.5-flash"
          (contents (schema_text (get_table_schemas env)) user_input) = Ok resp ->
        response_text env resp = Ok text ->
        body = JObj [("sql_query", json_of_optstr text)]) /\
    (forall e,
        translation_failure env
          (contents (schema_text (get_table_schemas env)) user_input) e ->
        body = JObj [("error", JStr ("Error generating SQL: " ++ str e))]).
Proof.
  intros Hform. unfold query. rewrite Hform. cbn [bind].
  destruct (translation_outcome env
              (contents (schema_text (get_table_schemas env)) user_input))
    as [(resp & text & H1 & H2) | (e & Hfail)].
  - rewrite (generate_sql_success env user_input resp text H1 H2). cbn [truthy].
    eexists. split; [reflexivity|]. split; [reflexivity|]. split.
    + intros resp' text' H1' H2'. rewrite H1 in H1'. injection H1' as <-.
      rewrite H2 in H2'. injection H2' as <-. reflexivity.
    + intros e [H | resp' H1' H].
      * rewrite H1 in H. discriminate.
      * rewrite H1 in H1'. injection H1' as <-. rewrite H2 in H. discriminate.
  - rewrite (generate_sql_failure env user_input e Hfail).
    rewrite truthy_generation_error.
    eexists. split; [reflexivity|]. split; [reflexivity|]. split.
    + intros resp text H1 H2. destruct Hfail as [H | resp' H1' H].
      * rewrite H1 in H. discriminate.
      * rewrite H1 in H1'. injection H1' as <-. rewrite H2 in H. discriminate.
    + intros e' Hfail'. destruct Hfail as [H | resp H1 H];
        destruct Hfail' as [H' | resp' H1' H'].
      * rewrite H in H'. now injection H' as <-.
      * rewrite H in H1'. discriminate.
      * rewrite H1 in H'. discriminate.
      * rewrite H1 in H1'. injection H1' as <-. rewrite H in H'.
        now injection H' as <-.
Qed.

Lemma query_sql_or_error_witness :
  (exists body,
      query sample_env [("user_input", "show all customers")] = Ok (jsonify body) /\
      body = JObj [("sql_query", JStr "SELECT * FROM customers;")]) /\
  (exists body,
      query offline_env [("user_input", "show all customers")] = Ok (jsonify body) /\
      body = JObj [("error", JStr "Error generating SQL: API key not valid")]).
Proof.
  split.
  - destruct (query_sql_or_error sample_env [("user_input", "show all customers")]
                "show all customers" eq_refl) as (body & Hq & _ & Hok & _).
    exists body. split; [exact Hq|].
    apply (Hok "SELECT * FROM customers;" (Some "SELECT * FROM customers;"));
      reflexivity.
  - destruct (query_sql_or_error offline_env [("user_input", "show all customers")]
                "show all customers" eq_refl) as (body & Hq & _ & _ & Hfail).
    exists body. split; [exact Hq|].
    apply (Hfail (Exception "API key not valid")).
    apply translation_call_fails. reflexivity.
Defined.

(** What [execute_query] returns, by the outcome of the execution. *)
Lemma execute_query_failure (env : Environment) (sql : string) (e : exn) :
  execution_failure env sql e ->
  execute_query env sql = (None, Some ("Error executing query: " ++ str e)).
Proof.
  intros [H | conn H1 H | conn df H1 H2 H]; unfold execute_query.
  - now rewrite H.
  - step H1. now rewrite H.
  - step H1. step H2. now rewrite H.
Qed.

Lemma execute_query_success (env : Environment) (sql : string) conn df :
  psycopg2_connect env = Ok conn ->
  pd_read_sql_query env sql conn = Ok df ->
  conn_close env conn = Ok tt ->
  execute_query env sql =
  (Some {| columns := df_columns df; data := to_dict_records df |}, None).
Proof.
  intros H1 H2 H3. unfold execute_query.
  step H1. step H2. now rewrite H3.
Qed.

(** C5. When running the statement fails with [e] (no connection, a
    statement the database refuses, a failing close), the query executor
    returns no result at all and the message [str(e)] of the driver behind
    a fixed prefix; [/execute] then answers with the JSON object whose only
    member is [error], and has no [results] member. *)
Theorem execution_failure_is_error_only
        (env : Environment) (form : form_data) (sql : string) (e : exn) :
  form_getitem form "sql_query" = Ok sql ->
  execution_failure env sql e ->
  execute_query env sql = (None, Some ("Error executing query: " ++ str e)) /\
  execute env form =
    Ok (jsonify (JObj [("error", JStr ("Error executing query: " ++ str e))])) /\
  (forall body, execute env form = Ok (JsonResponse body) ->
                has_member body "results" = false /\ has_member body "error" = true).
Proof.
  intros Hform Hfail.
  pose proof (execute_query_failure env sql e Hfail) as Hq.
  assert (Hresp : execute env form =
            Ok (jsonify (JObj [("error", JStr ("Error executing query: " ++ str e))]))).
  { unfold execute. rewrite Hform. cbn [bind]. rewrite Hq.
    now rewrite truthy_execution_error. }
  split; [exact Hq|]. split; [exact Hresp|].
  intros body Hbody. rewrite Hresp in Hbody. unfold jsonify in Hbody.
  injection Hbody as <-. split; reflexivity.
Qed.

Lemma execution_failure_is_error_only_witness :
  execute_query sample_env "SELEKT 1" =
    (None, Some "Error executing query: Execution failed on sql 'SELEKT 1': syntax error") /\
  execute sample_env [("sql_query", "SELEKT 1")] =
    Ok (jsonify (JObj [("error",
      JStr "Error executing query: Execution failed on sql 'SELEKT 1': syntax error")])).
Proof.
  destruct (execution_failure_is_error_only sample_env [("sql_query", "SELEKT 1")]
              "SELEKT 1"
              (Exception "Execution failed on sql 'SELEKT 1': syntax error") eq_refl)
    as (H1 & H2 & _).
  - apply (execution_statement_fails sample_env _ _ tt); reflexivity.
  - split; [exact H1|exact H2].
Defined.

(** ** The query executor *)

Lemma NoDup_fst_combine {A B : Type} (l : list A) (l' : list B) :
  NoDup l -> NoDup (map fst (combine l l')).
Proof.
  intros Hnd. revert l'. induction Hnd as [|a l Hnotin Hnd IH]; intros l'; simpl.
  - constructor.
  - destruct l' as [|b l']; simpl; constructor; auto.
    intros Hin. apply Hnotin. apply in_map_iff in Hin.
    destruct Hin as ([a' b'] & <- & Hin). simpl.
    eapply in_combine_l; eauto.
Qed.

(** The mapping of a row has no key but column labels; when the labels
    are distinct it pairs each label with the cell of its position. *)
Lemma row_record_keys (cols : list string) (row : list scalar) (k : string) :
  In k (PyDict.keys (PyDict.of_pairs (combine cols row))) -> In k cols.
Proof.
  intros H. unfold PyDict.of_pairs in H. apply keys_fold_set in H.
  destruct H as [[]|H]. apply in_map_iff in H.
  destruct H as ([k' v] & <- & Hin). simpl. eapply in_combine_l; eauto.
Qed.

Lemma row_record_distinct (cols : list string) (row : list scalar) :
  NoDup cols -> PyDict.of_pairs (combine cols row) = combine cols row.
Proof.
  intros Hnd. apply of_pairs_distinct. now apply NoDup_fst_combine.
Qed.

(** C1. When the statement runs (the connection opens, pandas reads the
    frame [df], the connection closes), the query executor returns no
    error and a structure holding the column labels of [df] under
    [columns] and, under [data], one mapping per row of [df], in order:
    its keys are column labels, and with distinct labels it maps each
    label to the row's cell in that column.  In particular, where
    [SELECT 1 AS x] reads as the one-column frame [x] with the single row
    [1], the result is columns [x] and one row mapping [x] to [1]. *)
Theorem execute_query_tabular (env : Environment) :
  (forall sql conn df,
      psycopg2_connect env = Ok conn ->
      pd_read_sql_query env sql conn = Ok df ->
      conn_close env conn = Ok tt ->
      exists r,
        execute_query env sql = (Some r, None) /\
        columns r = df_columns df /\
        length (data r) = length (df_rows df) /\
        forall i row,
          nth_error (df_rows df) i = Some row ->
          exists record,
            nth_error (data r) i = Some record /\
            (forall k, In k (PyDict.keys record) -> In k (columns r)) /\
            (NoDup (df_columns df) -> PyDict.items record = combine (df_columns df) row)) /\
  (forall conn,
      psycopg2_connect env = Ok conn ->
      pd_read_sql_query env "SELECT 1 AS x" conn =
        Ok {| df_columns := ["x"]; df_rows := [[PInt 1]] |} ->
      conn_close env conn = Ok tt ->
      execute_query env "SELECT 1 AS x" =
        (Some {| columns := ["x"]; data := [[("x", PInt 1)]] |}, None)).
Proof.
  split.
  - intros sql conn df Hc Hread Hclose.
    rewrite (execute_query_success env sql conn df Hc Hread Hclose).
    eexists. split; [reflexivity|]. cbn [columns data].
    split; [reflexivity|]. split.
    + unfold to_dict_records. apply length_map.
    + intros i row Hrow. unfold to_dict_records. rewrite nth_error_map, Hrow.
      eexists. split; [reflexivity|]. split.
      * intros k. apply row_record_keys.
      * intros Hnd. unfold PyDict.items. now apply row_record_distinct.
  - intros conn Hc Hread Hclose.
    now rewrite (execute_query_success env _ conn _ Hc Hread Hclose).
Qed.

Lemma execute_query_tabular_witness :
  execute_query sample_env "SELECT 1 AS x" =
    (Some {| columns := ["x"]; data := [[("x", PInt 1)]] |}, None) /\
  execute sample_env [("sql_query", "SELECT 1 AS x")] =
    Ok (jsonify (JObj [("results",
          JObj [("columns", JArr [JStr "x"]);
                ("data", JArr [JObj [("x", JNum 1)]])])])).
Proof.
  assert (H : execute_query sample_env "SELECT 1 AS x" =
                (Some {| columns := ["x"]; data := [[("x", PInt 1)]] |}, None)).
  { apply (proj2 (execute_query_tabular sample_env) tt); reflexivity. }
  split; [exact H|].
  unfold execute. cbn [form_getitem PyDict.get String.eqb Ascii.eqb Bool.eqb bind].
  rewrite H. reflexivity.
Defined.

(** ** The export formatter *)

(** A run of the export steps that returns has left the object bound to
    [results] as it was, and streams the file it wrote under the fixed
    name and type of the requested kind. *)
Lemma export_results_returns (env : Environment) (file_type : string) st resp st' :
  export_results env file_type st = Ok (resp, st') ->
  st_results st' = st_results st /\
  exists file_path bytes,
    PyDict.get (st_files st') file_path = Some bytes /\
    resp = FileResponse file_path
             (if file_type =? "csv" then "text/csv" else xlsx_mimetype) true
             (if file_type =? "csv" then "query_results.csv" else "query_results.xlsx")
             bytes.
Proof.
  unfold export_results, bindM, results_data, lift.
  destruct (st_results st) as [r|] eqn:Hr; [|discriminate].
  destruct (tempfile_mkdtemp env) as [temp_dir|e]; [|discriminate].
  destruct (file_type =? "csv").
  - unfold to_csv, write_file, ret, send_file. cbn [st_files st_results].
    rewrite get_set_same. intros H. injection H as <- <-. cbn [st_files st_results].
    split; [auto|]. do 2 eexists. split; [apply get_set_same|reflexivity].
  - unfold to_excel, bindM, lift, write_file, ret, send_file.
    destruct (excel_bytes env _) as [bytes|e]; [|discriminate].
    cbn [st_files st_results].
    rewrite get_set_same. intros H. injection H as <- <-. cbn [st_files st_results].
    split; [auto|]. do 2 eexists. split; [apply get_set_same|reflexivity].
Qed.

Lemma export_results_csv (env : Environment) st r temp_dir :
  st_results st = Some r ->
  tempfile_mkdtemp env = Ok temp_dir ->
  exists st',
    export_results env "csv" st =
    Ok (FileResponse (os_path_join temp_dir "query_results.csv") "text/csv" true
          "query_results.csv" (to_csv_text (DataFrame_of_records (data r))), st').
Proof.
  intros Hr Htmp. unfold export_results, bindM, results_data, lift.
  rewrite Hr, Htmp. cbn [String.eqb Ascii.eqb Bool.eqb].
  unfold to_csv, write_file, ret, send_file. cbn [st_files st_results].
  rewrite get_set_same. eexists. reflexivity.
Qed.

Lemma export_results_xlsx (env : Environment) (file_type : string) st r temp_dir bytes :
  file_type <> "csv" ->
  st_results st = Some r ->
  tempfile_mkdtemp env = Ok temp_dir ->
  excel_bytes env (DataFrame_of_records (data r)) = Ok bytes ->
  exists st',
    export_results env file_type st =
    Ok (FileResponse (os_path_join temp_dir "query_results.xlsx") xlsx_mimetype true
          "query_results.xlsx" bytes, st').
Proof.
  intros Hft Hr Htmp Hx. apply String.eqb_neq in Hft.
  unfold export_results, bindM, results_data, lift.
  rewrite Hr, Htmp, Hft.
  unfold to_excel, bindM, lift, write_file, ret, send_file. rewrite Hx.
  cbn [st_files st_results].
  rewrite get_set_same. eexists. reflexivity.
Qed.

(** What a [/download] request that got through the field lookups and
    the execution hands to the export steps. *)
Lemma download_runs_export (env : Environment) (form : form_data) sql file_type r :
  form_getitem form "sql_query" = Ok sql ->
  form_getitem form "file_type" = Ok file_type ->
  execute_query env sql = (Some r, None) ->
  download env form =
  match export_results env file_type
          {| st_results := Some r; st_files := PyDict.empty |} with
  | Ok (resp, _) => Ok resp
  | Raise e => Raise e
  end.
Proof.
  intros Hsql Hft Hq. unfold download. rewrite Hsql, Hft. cbn [bind].
  rewrite Hq. reflexivity.
Qed.

(** C7. A [/download] request that succeeds, that is, answers with a
    file, was given a [file_type] and streams its file as an attachment
    under a fixed name: [query_results.csv] with type [text/csv] when the
    [file_type] is [csv], [query_results.xlsx] with the spreadsheet type
    otherwise.  The export steps that produced it ran on the result of the
    execution and left the object bound to [results] unchanged. *)
Theorem download_fixed_names_no_mutation
        (env : Environment) (form : form_data) path mimetype attachment name bytes :
  download env form = Ok (FileResponse path mimetype attachment name bytes) ->
  exists sql file_type results st',
    form_getitem form "sql_query" = Ok sql /\
    form_getitem form "file_type" = Ok file_type /\
    fst (execute_query env sql) = results /\
    export_results env file_type {| st_results := results; st_files := PyDict.empty |} =
      Ok (FileResponse path mimetype attachment name bytes, st') /\
    st_results st' = results /\
    attachment = true /\
    ((file_type = "csv" /\ name = "query_results.csv" /\ mimetype = "text/csv") \/
     (file_type <> "csv" /\ name = "query_results.xlsx" /\ mimetype = xlsx_mimetype)).
Proof.
  unfold download.
  destruct (form_getitem form "sql_query") as [sql|e] eqn:Hsql; [|discriminate].
  destruct (form_getitem form "file_type") as [file_type|e] eqn:Hft; [|discriminate].
  cbn [bind].
  destruct (execute_query env sql) as [results error] eqn:Hq.
  destruct (truthy error); [discriminate|].
  destruct (export_results env file_type _) as [[resp st']|e] eqn:Hexp; [|discriminate].
  intros H. injection H as ->.
  destruct (export_results_returns _ _ _ _ _ Hexp) as (Hres & fp & bs & _ & Hresp).
  exists sql, file_type, results, st'.
  split; [reflexivity|]. split; [reflexivity|].
  split; [now rewrite Hq|].
  split; [exact Hexp|]. split; [exact Hres|].
  injection Hresp as -> -> -> -> ->.
  split; [reflexivity|].
  destruct (file_type =? "csv") eqn:E.
  - left. apply String.eqb_eq in E. auto.
  - right. apply String.eqb_neq in E. auto.
Qed.

Lemma download_fixed_names_no_mutation_witness :
  download sample_env [("sql_query", "SELECT 1 AS x"); ("file_type", "csv")] =
    Ok (FileResponse "/tmp/tmpk3v9x2ab/query_results.csv" "text/csv" true
          "query_results.csv" ("x" ++ LF ++ "1" ++ LF)) /\
  exists st',
    export_results sample_env "csv"
      {| st_results := Some {| columns := ["x"]; data := [[("x", PInt 1)]] |};
         st_files := PyDict.empty |} =
      Ok (FileResponse "/tmp/tmpk3v9x2ab/query_results.csv" "text/csv" true
            "query_results.csv" ("x" ++ LF ++ "1" ++ LF), st') /\
    st_results st' = Some {| columns := ["x"]; data := [[("x", PInt 1)]] |}.
Proof.
  assert (H : download sample_env [("sql_query", "SELECT 1 AS x"); ("file_type", "csv")] =
    Ok (FileResponse "/tmp/tmpk3v9x2ab/query_results.csv" "text/csv" true
          "query_results.csv" ("x" ++ LF ++ "1" ++ LF))) by reflexivity.
  split; [exact H|].
  destruct (download_fixed_names_no_mutation sample_env _ _ _ _ _ _ H)
    as (sql & ft & results & st' & Hsql & Hft & Hq & Hexp & Hres & _).
  injection Hsql as <-. injection Hft as <-.
  simpl in Hq. subst results.
  exists st'. split; [exact Hexp|exact Hres].
Defined.

(** C10. Whatever [file_type] other than [csv] is submitted ([excel],
    [spreadsheet], anything), a [/download] request whose statement runs
    and whose workbook is written answers with the workbook, named
    [query_results.xlsx], under the spreadsheet type: no value of
    [file_type] is refused. *)
Theorem download_other_type_is_xlsx
        (env : Environment) (form : form_data) sql file_type r temp_dir bytes :
  form_getitem form "sql_query" = Ok sql ->
  form_getitem form "file_type" = Ok file_type ->
  file_type <> "csv" ->
  execute_query env sql = (Some r, None) ->
  tempfile_mkdtemp env = Ok temp_dir ->
  excel_bytes env (DataFrame_of_records (data r)) = Ok bytes ->
  download env form =
    Ok (FileResponse (os_path_join temp_dir "query_results.xlsx") xlsx_mimetype true
          "query_results.xlsx" bytes).
Proof.
  intros Hsql Hft Hne Hq Htmp Hx.
  rewrite (download_runs_export env form sql file_type r Hsql Hft Hq).
  destruct (export_results_xlsx env file_type
              {| st_results := Some r; st_files := PyDict.empty |} r temp_dir bytes
              Hne eq_refl Htmp Hx) as (st' & ->).
  reflexivity.
Qed.

Lemma download_other_type_is_xlsx_witness :
  download sample_env [("sql_query", "SELECT 1 AS x"); ("file_type", "parquet")] =
    Ok (FileResponse "/tmp/tmpk3v9x2ab/query_results.xlsx" xlsx_mimetype true
          "query_results.xlsx" "PK").
Proof.
  apply (download_other_type_is_xlsx sample_env
           [("sql_query", "SELECT 1 AS x"); ("file_type", "parquet")]
           "SELECT 1 AS x" "parquet"
           {| columns := ["x"]; data := [[("x", PInt 1)]] |}
           "/tmp/tmpk3v9x2ab" "PK");
    first [reflexivity | discriminate].
Defined.

(** ** The prompt builder *)

Lemma concat_column_list (cols : list string) :
  String.concat ", " cols = spec_column_list cols.
Proof.
  induction cols as [|c [|c' rest] IH]; try reflexivity.
  cbn [String.concat spec_column_list] in *. now rewrite IH.
Qed.

Lemma schema_text_lines (schema : SchemaMap) :
  schema_text schema = spec_schema_block (PyDict.items schema).
Proof.
  unfold schema_text, PyDict.items.
  induction schema as [|[table cols] [|entry rest] IH].
  - reflexivity.
  - simpl. unfold spec_table_line. now rewrite concat_column_list.
  - cbn [map String.concat spec_schema_block] in *. rewrite IH.
    unfold spec_table_line. now rewrite concat_column_list.
Qed.

Lemma append_assoc (a b c : string) : (a ++ b) ++ c = a ++ b ++ c.
Proof. induction a as [|x a IH]; simpl; [reflexivity|now rewrite IH]. Qed.

Lemma contents_pieces (block question : string) :
  contents block question =
  prompt_head ++ block ++ prompt_middle ++ question ++ prompt_tail.
Proof. reflexivity. Qed.

Lemma substring_after (a s : string) (n : nat) :
  substring (String.length a) n (a ++ s) = substring 0 n s.
Proof. induction a as [|c a IH]; simpl; auto. Qed.

Lemma substring_prefix (q b : string) :
  substring 0 (String.length q) (q ++ b) = q.
Proof.
  induction q as [|c q IH]; simpl.
  - now destruct b.
  - now rewrite IH.
Qed.

(** C6. The prompt is a function of the schema map and the question
    alone, defined on every input.  The schema block is one line
    [Table <name>: <col1 (type1)>, <col2 (type2)>, ...] per table, joined
    by line feeds; the prompt is the fixed template with the block and the
    question in its two holes; the question stands in it verbatim; with no
    table the block is empty and the prompt is the bare template around
    the question.  The template names PostgreSQL and ends by asking for
    plain text, the query only, with no markdown formatting. *)
Theorem prompt_is_filled_template (schema : SchemaMap) (question : string) :
  schema_text schema = spec_schema_block (PyDict.items schema) /\
  contents (schema_text schema) question =
    prompt_head ++ spec_schema_block (PyDict.items schema) ++
    prompt_middle ++ question ++ prompt_tail /\
  substring
    (String.length (prompt_head ++ spec_schema_block (PyDict.items schema) ++ prompt_middle))
    (String.length question)
    (contents (schema_text schema) question) = question /\
  (PyDict.items schema = [] ->
   schema_text schema = "" /\
   contents (schema_text schema) question =
     prompt_head ++ prompt_middle ++ question ++ prompt_tail).
Proof.
  pose proof (schema_text_lines schema) as Hblock.
  assert (Hprompt : contents (schema_text schema) question =
            prompt_head ++ spec_schema_block (PyDict.items schema) ++
            prompt_middle ++ question ++ prompt_tail)
    by (rewrite contents_pieces; now rewrite Hblock).
  split; [exact Hblock|]. split; [exact Hprompt|]. split.
  - rewrite Hprompt.
    replace (prompt_head ++ spec_schema_block (PyDict.items schema) ++
             prompt_middle ++ question ++ prompt_tail)
      with ((prompt_head ++ spec_schema_block (PyDict.items schema) ++ prompt_middle)
            ++ question ++ prompt_tail)
      by (now rewrite !append_assoc).
    rewrite substring_after. apply substring_prefix.
  - intros Hempty. rewrite Hprompt, Hblock, Hempty. split; reflexivity.
Qed.

Lemma prompt_is_filled_template_witness :
  schema_text (get_table_schemas sample_env) =
    "Table customers: id (int), name (text)" ++ LF ++
    "Table orders: id (int), customer_id (int)" /\
  contents (schema_text (get_table_schemas sample_env)) "show all customers" =
    prompt_head ++
    ("Table customers: id (int), name (text)" ++ LF ++
     "Table orders: id (int), customer_id (int)") ++
    prompt_middle ++ "show all customers" ++ prompt_tail /\
  contents (schema_text (get_table_schemas offline_env)) "show all customers" =
    prompt_head ++ prompt_middle ++ "show all customers" ++ prompt_tail.
Proof.
  split; [|split].
  - exact (proj1 (prompt_is_filled_template (get_table_schemas sample_env) "")).
  - exact (proj1 (proj2 (prompt_is_filled_template (get_table_schemas sample_env)
                           "show all customers"))).
  - apply (prompt_is_filled_template (get_table_schemas offline_env)
             "show all customers").
    reflexivity.
Defined.

(** The prompt [generate_sql] hands to the model is this one, over the
    schema map the inspector returned, whatever the database did. *)
Lemma generate_sql_sends_prompt (env : Environment) (question : string) :
  generate_sql env question =
  try_except
    (resp <- generate_content env "gemini-1.5-flash"
               (prompt_head ++ spec_schema_block (PyDict.items (get_table_schemas env)) ++
                prompt_middle ++ question ++ prompt_tail) ;;
     text <- response_text env resp ;;
     Ok (text, None))
    (fun e => (None, Some ("Error generating SQL: " ++ str e))).
Proof.
  unfold generate_sql. cbv zeta.
  now rewrite contents_pieces, schema_text_lines.
Qed.

(** ** CSV export of a result without rows *)

(** A frame rebuilt from no record has no column, and its CSV text is a
    single empty line. *)
Lemma no_record_no_label : DataFrame_of_records [] = {| df_columns := []; df_rows := [] |}.
Proof. reflexivity. Qed.

Lemma download_csv_without_rows (env : Environment) (form : form_data) sql conn df temp_dir :
  form_getitem form "sql_query" = Ok sql ->
  form_getitem form "file_type" = Ok "csv" ->
  psycopg2_connect env = Ok conn ->
  pd_read_sql_query env sql conn = Ok df ->
  conn_close env conn = Ok tt ->
  tempfile_mkdtemp env = Ok temp_dir ->
  df_rows df = [] ->
  download env form =
    Ok (FileResponse (os_path_join temp_dir "query_results.csv") "text/csv" true
          "query_results.csv" LF).
Proof.
  intros Hsql Hft Hc Hread Hclose Htmp Hrows.
  pose proof (execute_query_success env sql conn df Hc Hread Hclose) as Hq.
  rewrite (download_runs_export env form sql "csv" _ Hsql Hft Hq).
  destruct (export_results_csv env
              {| st_results := Some {| columns := df_columns df; data := to_dict_records df |};
                 st_files := PyDict.empty |} _ temp_dir eq_refl Htmp) as (st' & ->).
  cbn [data]. unfold to_dict_records. rewrite Hrows. reflexivity.
Qed.

(** C2, at a result with a column and no row.  The statement returns the
    column [x] and no row; the executor reports the column, but the CSV
    [/download] streams is a single empty line: read back, its header has
    no field, so the header is not the columns of the result. *)
Theorem download_csv_of_empty_result_drops_header :
  execute_query sample_env "SELECT 1 AS x WHERE false" =
    (Some {| columns := ["x"]; data := [] |}, None) /\
  download sample_env
    [("sql_query", "SELECT 1 AS x WHERE false"); ("file_type", "csv")] =
    Ok (FileResponse "/tmp/tmpk3v9x2ab/query_results.csv" "text/csv" true
          "query_results.csv" LF) /\
  csv_reader LF = [[]] /\
  hd [] (csv_reader LF) <> ["x"].
Proof.
  split; [reflexivity|]. split.
  - apply (download_csv_without_rows sample_env _ "SELECT 1 AS x WHERE false" tt
             {| df_columns := ["x"]; df_rows := [] |} "/tmp/tmpk3v9x2ab");
      reflexivity.
  - split; [reflexivity|]. simpl. discriminate.
Qed.

(** ** CSV export of a result with rows

    What does hold of the CSV path: the reader undoes the writer on every
    frame, and a frame with at least one row, distinct labels and full
    rows survives the passage through [to_dict('records')] and
    [pd.DataFrame].  The header is lost only where the frame is rebuilt
    from no record. *)

Lemma append_nil_r (s : string) : s ++ "" = s.
Proof. induction s as [|c s IH]; simpl; [reflexivity|now rewrite IH]. Qed.

Lemma plain_char (c : ascii) :
  needs_quoting c = false ->
  is_LF c = false /\ is_CR c = false /\ is_quote c = false /\ is_delimiter c = false.
Proof.
  unfold needs_quoting, is_LF, is_CR, is_quote, is_delimiter.
  intros H. repeat (apply orb_false_iff in H; destruct H as [H ?]). auto.
Qed.

(** An unquoted run of plain characters is added to the field. *)
Lemma read_plain_run (s : string) :
  has_special s = false ->
  forall field fields tail,
    csv_read IN_FIELD field fields (s ++ tail) =
    csv_read IN_FIELD (field ++ s) fields tail.
Proof.
  induction s as [|c s IH]; intros Hs field fields tail.
  - now rewrite append_nil_r.
  - simpl in Hs. apply orb_false_iff in Hs. destruct Hs as [Hc Hs].
    destruct (plain_char c Hc) as (HLF & HCR & _ & Hdel).
    cbn [append csv_read reader_step]. rewrite HLF, HCR, Hdel. cbn [app].
    rewrite (IH Hs). unfold add_char. now rewrite append_assoc.
Qed.

(** Inside quotes, the doubled text of [s] up to the closing quote is read
    as [s]. *)
Lemma read_quoted_run (s : string) :
  forall field fields tail,
    csv_read IN_QUOTED_FIELD field fields (double_quotes s ++ DQUOTE ++ tail) =
    csv_read QUOTE_IN_QUOTED_FIELD (field ++ s) fields tail.
Proof.
  induction s as [|c s IH]; intros field fields tail.
  - rewrite append_nil_r. reflexivity.
  - cbn [double_quotes]. fold (is_quote c). destruct (is_quote c) eqn:Hq.
    + cbn [append csv_read]. unfold reader_step at 1. rewrite Hq. cbn [app].
      unfold reader_step at 1. rewrite Hq. cbn [app].
      rewrite IH. unfold add_char. now rewrite append_assoc.
    + cbn [append csv_read]. unfold reader_step at 1. rewrite Hq. cbn [app].
      rewrite IH. unfold add_char. now rewrite append_assoc.
Qed.

(** A written field, read from where a field starts, up to the character
    that ends it. *)
Lemma read_quoted_field (s : string) (fields : list string) (tail : string) :
  csv_read START_FIELD "" fields ((DQUOTE ++ double_quotes s ++ DQUOTE) ++ tail) =
  csv_read QUOTE_IN_QUOTED_FIELD s fields tail.
Proof.
  rewrite !append_assoc.
  change (DQUOTE ++ double_quotes s ++ DQUOTE ++ tail)
    with (String (ascii_of_nat 34) (double_quotes s ++ DQUOTE ++ tail)).
  cbn [csv_read]. change (reader_step START_FIELD "" fields (ascii_of_nat 34))
    with (@nil (list string), (IN_QUOTED_FIELD, "", fields)).
  cbn [app]. now rewrite read_quoted_run.
Qed.

Lemma read_plain_field (c : ascii) (s : string) (fields : list string) (tail : string) :
  has_special (String c s) = false ->
  csv_read START_FIELD "" fields (String c s ++ tail) =
  csv_read IN_FIELD (String c s) fields tail.
Proof.
  intros Hs. simpl in Hs. apply orb_false_iff in Hs. destruct Hs as [Hc Hs].
  destruct (plain_char c Hc) as (HLF & HCR & Hq & Hdel).
  cbn [append csv_read]. unfold reader_step, start_field.
  rewrite HLF, HCR, Hq, Hdel. cbn [app].
  now rewrite (read_plain_run s Hs).
Qed.

(** A written field followed by a comma is read as one more field. *)
Lemma read_field_comma (s : string) (fields : list string) (tail : string) :
  csv_read START_FIELD "" fields (csv_field s ++ "," ++ tail) =
  csv_read START_FIELD "" (fields ++ [s])%list tail.
Proof.
  unfold csv_field. destruct (has_special s) eqn:Hs.
  - rewrite read_quoted_field. reflexivity.
  - destruct s as [|c s]; [reflexivity|].
    rewrite (read_plain_field c s fields _ Hs). reflexivity.
Qed.

(** A written field followed by the line terminator ends its record. *)
Lemma read_field_line (s : string) (fields : list string) (tail : string) :
  csv_read START_FIELD "" fields (csv_field s ++ LF ++ tail) =
  (fields ++ [s])%list :: csv_read START_RECORD "" [] tail.
Proof.
  unfold csv_field. destruct (has_special s) eqn:Hs.
  - rewrite read_quoted_field. reflexivity.
  - destruct s as [|c s]; [reflexivity|].
    rewrite (read_plain_field c s fields _ Hs). reflexivity.
Qed.

Lemma concat_two (sep x y : string) (l : list string) :
  String.concat sep (x :: y :: l) = x ++ sep ++ String.concat sep (y :: l).
Proof. reflexivity. Qed.

(** The written fields of a record, read from where a field starts. *)
Lemma read_fields (s : string) (more : list string) :
  forall fields tail,
    csv_read START_FIELD "" fields
      (String.concat "," (map csv_field (s :: more)) ++ LF ++ tail) =
    (fields ++ s :: more)%list :: csv_read START_RECORD "" [] tail.
Proof.
  revert s. induction more as [|s' more IH]; intros s fields tail.
  - cbn [map String.concat]. apply read_field_line.
  - cbn [map]. rewrite concat_two, !append_assoc, read_field_comma.
    specialize (IH s' (fields ++ [s])%list tail). cbn [map] in IH. rewrite IH.
    now rewrite <- app_assoc.
Qed.

(** At the start of a line, anything but a line break starts a field. *)
Lemma start_record_as_field (c : ascii) (text : string) :
  is_LF c = false -> is_CR c = false ->
  csv_read START_RECORD "" [] (String c text) =
  csv_read START_FIELD "" [] (String c text).
Proof.
  intros HLF HCR. cbn [csv_read]. unfold reader_step, start_record.
  now rewrite HLF, HCR.
Qed.

(** The first character of a written field is no line break. *)
Lemma csv_field_head (s tail : string) (c : ascii) (text : string) :
  csv_field s ++ tail = String c text -> s <> "" ->
  is_LF c = false /\ is_CR c = false.
Proof.
  unfold csv_field. destruct (has_special s) eqn:Hs.
  - intros H _. injection H as <- _. split; reflexivity.
  - destruct s as [|c' s]; [contradiction|]. intros H _.
    injection H as <- _. simpl in Hs. apply orb_false_iff in Hs.
    destruct Hs as [Hc _]. destruct (plain_char c' Hc) as (? & ? & _). auto.
Qed.

(** The reader undoes [writerow]. *)
Lemma read_written_row (fields : list string) (tail : string) :
  csv_read START_RECORD "" [] (csv_writerow fields ++ tail) =
  fields :: csv_read START_RECORD "" [] tail.
Proof.
  destruct fields as [|s more].
  - reflexivity.
  - assert (Hgen : csv_read START_RECORD "" []
                     ((String.concat "," (map csv_field (s :: more)) ++ LF) ++ tail) =
                   (s :: more) :: csv_read START_RECORD "" [] tail ->
                   csv_read START_RECORD "" [] (csv_writerow (s :: more) ++ tail) =
                   (s :: more) :: csv_read START_RECORD "" [] tail).
    { destruct s as [|c s]; [destruct more|]; auto. }
    destruct s as [|c s]; [destruct more as [|s' more]|].
    + reflexivity.
    + apply Hgen. rewrite append_assoc.
      etransitivity; [|apply (read_fields "" (s' :: more) [] tail)]. reflexivity.
    + apply Hgen. rewrite append_assoc.
      etransitivity; [|apply (read_fields (String c s) more [] tail)].
      destruct (String.concat "," (map csv_field (String c s :: more)) ++ LF ++ tail)
        as [|c0 text] eqn:E.
      * exfalso. destruct more; cbn [map] in E;
          [cbn [String.concat] in E|rewrite concat_two in E];
          unfold csv_field in E; destruct (has_special (String c s)); discriminate.
      * assert (Hhead : is_LF c0 = false /\ is_CR c0 = false).
        { destruct more; cbn [map] in E;
            [cbn [String.concat] in E|rewrite concat_two, append_assoc in E];
            eapply csv_field_head; eauto; discriminate. }
        destruct Hhead. now apply start_record_as_field.
Qed.

Lemma read_written_rows (records : list (list string)) :
  csv_reader (String.concat "" (map csv_writerow records)) = records.
Proof.
  unfold csv_reader. induction records as [|r [|r' records] IH].
  - reflexivity.
  - cbn [map String.concat]. rewrite <- (append_nil_r (csv_writerow r)).
    rewrite read_written_row. reflexivity.
  - cbn [map] in *. rewrite concat_two. cbn [append].
    rewrite read_written_row. now rewrite IH.
Qed.

(** Reading the CSV text of a frame back gives its labels, then, for each
    row, the texts of its cells: a missing value comes back as an empty
    cell. *)
Lemma csv_round_trip (df : DataFrame) :
  csv_reader (to_csv_text df) =
  df_columns df :: map (map cell_text) (df_rows df).
Proof.
  unfold to_csv_text, csv_reader. rewrite read_written_row. f_equal.
  rewrite <- (map_map (map cell_text) csv_writerow).
  apply read_written_rows.
Qed.

(** Labels that are all known add nothing; fresh distinct labels are
    added in their order. *)
Lemma add_known_labels (ks labels : list string) :
  (forall k, In k ks -> In k labels) ->
  fold_left add_label ks labels = labels.
Proof.
  induction ks as [|k ks IH]; intros Hin; cbn [fold_left]; auto.
  change (add_label labels k)
    with (if existsb (String.eqb k) labels then labels else (labels ++ [k])%list).
  assert (Hk : existsb (String.eqb k) labels = true).
  { apply existsb_exists. exists k. split; [apply Hin; now left|apply String.eqb_refl]. }
  rewrite Hk. apply IH. intros k' Hk'. apply Hin. now right.
Qed.

Lemma add_fresh_labels (ks : list string) :
  forall labels, NoDup (labels ++ ks) ->
  fold_left add_label ks labels = (labels ++ ks)%list.
Proof.
  induction ks as [|k ks IH]; intros labels Hnd; cbn [fold_left].
  - now rewrite app_nil_r.
  - change (add_label labels k)
    with (if existsb (String.eqb k) labels then labels else (labels ++ [k])%list).
    assert (Hk : existsb (String.eqb k) labels = false).
    { destruct (existsb (String.eqb k) labels) eqn:E; auto.
      apply existsb_exists in E. destruct E as (k' & Hin & E).
      apply String.eqb_eq in E. subst k'.
      apply NoDup_remove_2 in Hnd. exfalso. apply Hnd.
      apply in_or_app. now left. }
    rewrite Hk, IH.
    + now rewrite <- app_assoc.
    + now rewrite <- app_assoc.
Qed.

Lemma keys_combine (cols : list string) (row : list scalar) :
  length row = length cols -> PyDict.keys (combine cols row) = cols.
Proof.
  unfold PyDict.keys. revert row.
  induction cols as [|c cols IH]; intros [|v row]; simpl; try discriminate; auto.
  intros H. injection H as H. now rewrite IH.
Qed.

Lemma cells_of_combine (cols : list string) (row : list scalar) :
  NoDup cols -> length row = length cols ->
  map (fun c => match PyDict.get (combine cols row) c with
                | Some v => v
                | None => PNone
                end) cols = row.
Proof.
  intros Hnd. revert row.
  induction Hnd as [|c cols Hnotin Hnd IH]; intros [|v row]; simpl; try discriminate; auto.
  intros H. injection H as H. rewrite String.eqb_refl. f_equal.
  etransitivity; [|exact (IH row H)]. apply map_ext_in.
  intros c' Hin. destruct (c =? c') eqn:E; auto.
  apply String.eqb_eq in E. subst c'. contradiction.
Qed.

Lemma labels_of_full_records (cols : list string) (rows : list (list scalar)) :
  NoDup cols ->
  Forall (fun row => length row = length cols) rows ->
  forall labels, labels = cols \/ (labels = [] /\ rows <> []) ->
  fold_left (fun labels record => fold_left add_label (PyDict.keys record) labels)
            (map (fun row => PyDict.of_pairs (combine cols row)) rows) labels = cols.
Proof.
  intros Hnd Hfull. induction Hfull as [|row rows Hrow Hfull IH]; intros labels Hl.
  - destruct Hl as [Hl|[_ Hl]]; [assumption|contradiction].
  - cbn [map fold_left]. rewrite (row_record_distinct cols row Hnd).
    rewrite (keys_combine cols row Hrow). apply IH. left.
    destruct Hl as [->|[-> _]].
    + now apply add_known_labels.
    + now rewrite add_fresh_labels.
Qed.

(** A frame with a row, distinct labels and full rows is rebuilt as it
    was from its records. *)
Lemma frame_survives_records (df : DataFrame) :
  NoDup (df_columns df) ->
  Forall (fun row => length row = length (df_columns df)) (df_rows df) ->
  df_rows df <> [] ->
  DataFrame_of_records (to_dict_records df) = df.
Proof.
  intros Hnd Hfull Hrows. destruct df as [cols rows]. cbn [df_columns df_rows] in *.
  unfold DataFrame_of_records, to_dict_records, labels_of_records.
  cbn [df_columns df_rows].
  rewrite (labels_of_full_records cols rows Hnd Hfull []) by (right; auto).
  f_equal. rewrite map_map.
  rewrite <- (map_id rows) at 2. apply map_ext_in.
  intros row Hin. rewrite Forall_forall in Hfull.
  rewrite (row_record_distinct cols row Hnd).
  now apply cells_of_combine; [|apply Hfull].
Qed.

(** For a statement that returns at least one row under distinct labels,
    the CSV [/download] streams reads back as the columns of the result,
    then its rows, cell by cell, a missing value as an empty cell. *)
Lemma download_csv_round_trip (env : Environment) (form : form_data) sql conn df temp_dir :
  form_getitem form "sql_query" = Ok sql ->
  form_getitem form "file_type" = Ok "csv" ->
  psycopg2_connect env = Ok conn ->
  pd_read_sql_query env sql conn = Ok df ->
  conn_close env conn = Ok tt ->
  tempfile_mkdtemp env = Ok temp_dir ->
  NoDup (df_columns df) ->
  Forall (fun row => length row = length (df_columns df)) (df_rows df) ->
  df_rows df <> [] ->
  exists bytes,
    download env form =
      Ok (FileResponse (os_path_join temp_dir "query_results.csv") "text/csv" true
            "query_results.csv" bytes) /\
    csv_reader bytes = df_columns df :: map (map cell_text) (df_rows df).
Proof.
  intros Hsql Hft Hc Hread Hclose Htmp Hnd Hfull Hrows.
  pose proof (execute_query_success env sql conn df Hc Hread Hclose) as Hq.
  rewrite (download_runs_export env form sql "csv" _ Hsql Hft Hq).
  destruct (export_results_csv env
              {| st_results := Some {| columns := df_columns df; data := to_dict_records df |};
                 st_files := PyDict.empty |} _ temp_dir eq_refl Htmp) as (st' & ->).
  eexists. split; [reflexivity|]. cbn [data].
  rewrite (frame_survives_records df Hnd Hfull Hrows).
  apply csv_round_trip.
Qed.

Example download_csv_round_trip_sample :
  exists bytes,
    download sample_env [("sql_query", "SELECT 1 AS x"); ("file_type", "csv")] =
      Ok (FileResponse "/tmp/tmpk3v9x2ab/query_results.csv" "text/csv" true
            "query_results.csv" bytes) /\
    csv_reader bytes = [["x"]; ["1"]].
Proof.
  apply (download_csv_round_trip sample_env _ "SELECT 1 AS x" tt
           {| df_columns := ["x"]; df_rows := [[PInt 1]] |} "/tmp/tmpk3v9x2ab");
    try reflexivity.
  - repeat constructor. simpl. tauto.
  - repeat constructor.
  - discriminate.
Qed.

(** * Further properties of the handlers *)




(** X2. When the statement of a [/download] request fails, the handler
    answers with the same one-member [error] object as [/execute],
    whatever the [file_type]: no temporary directory is asked for and no
    file is sent. *)
Theorem download_execution_failure_is_json_error
        (env : Environment) (form : form_data) (sql file_type : string) (e : exn) :
  form_getitem form "sql_query" = Ok sql ->
  form_getitem form "file_type" = Ok file_type ->
  execution_failure env sql e ->
  download env form =
    Ok (jsonify (JObj [("error", JStr ("Error executing query: " ++ str e))])) /\
  download env form = execute env form.
Proof.
  intros Hsql Hft Hfail.
  pose proof (execute_query_failure env sql e Hfail) as Hq.
  unfold download, execute. rewrite Hsql, Hft. cbn [bind].
  rewrite Hq, truthy_execution_error. split; reflexivity.
Qed.

Lemma download_execution_failure_is_json_error_witness :
  download restricted_env [("sql_query", "DROP TABLE t"); ("file_type", "csv")] =
    Ok (jsonify (JObj [("error", JStr "Error executing query: permission denied")])).
Proof.
  apply (download_execution_failure_is_json_error restricted_env
           [("sql_query", "DROP TABLE t"); ("file_type", "csv")]
           "DROP TABLE t" "csv" (Exception "permission denied"));
    try reflexivity.
  apply (execution_statement_fails restricted_env _ _ tt); reflexivity.
Defined.

(** X3. The export steps of [/download] are outside every [try]: when
    the statement ran but the temporary directory cannot be created, or
    the workbook cannot be written, the exception leaves the handler and
    no JSON [error] object is built. *)
Theorem download_export_failure_propagates
        (env : Environment) (form : form_data) (sql file_type : string)
        (r : query_results) (e : exn) :
  form_getitem form "sql_query" = Ok sql ->
  form_getitem form "file_type" = Ok file_type ->
  execute_query env sql = (Some r, None) ->
  (tempfile_mkdtemp env = Raise e -> download env form = Raise e) /\
  (forall temp_dir,
      tempfile_mkdtemp env = Ok temp_dir ->
      file_type <> "csv" ->
      excel_bytes env (DataFrame_of_records (data r)) = Raise e ->
      download env form = Raise e).
Proof.
  intros Hsql Hft Hq.
  rewrite (download_runs_export env form sql file_type r Hsql Hft Hq).
  unfold export_results, bindM, results_data, lift. cbn [st_results].
  split.
  - intros Htmp. now rewrite Htmp.
  - intros temp_dir Htmp Hne Hx. apply String.eqb_neq in Hne.
    rewrite Htmp, Hne. unfold to_excel, bindM, lift. now rewrite Hx.
Qed.

Lemma download_export_failure_propagates_witness :
  download full_disk_env [("sql_query", "SELECT 1 AS x"); ("file_type", "csv")] =
    Raise (Exception "No usable temporary directory found") /\
  download bare_env [("sql_query", "SELECT 1 AS x, 2 AS x"); ("file_type", "excel")] =
    Raise (Exception "No module named 'openpyxl'").
Proof.
  split.
  - apply (download_export_failure_propagates full_disk_env
             [("sql_query", "SELECT 1 AS x"); ("file_type", "csv")]
             "SELECT 1 AS x" "csv"
             {| columns := ["x"]; data := [[("x", PInt 1)]] |}
             (Exception "No usable temporary directory found"));
      reflexivity.
  - apply (proj2 (download_export_failure_propagates bare_env
             [("sql_query", "SELECT 1 AS x, 2 AS x"); ("file_type", "excel")]
             "SELECT 1 AS x, 2 AS x" "excel"
             {| columns := ["x"; "x"]; data := [[("x", PInt 2)]] |}
             (Exception "No module named 'openpyxl'") eq_refl eq_refl eq_refl)
             "/tmp/tmpk3v9x2ab");
      first [reflexivity | discriminate].
Defined.



(** X5. A catalog fetch that fails and a catalog fetch that succeeds on a
    schema without tables are the same to every caller: both give the
    empty schema map, the same [/schema_info] answer for the same database
    name, and the same prompt. *)
Theorem empty_catalog_looks_like_failure
        (failing bare : Environment) (e : exn) conn cur cur' (question : string) :
  catalog_failure failing e ->
  psycopg2_connect bare = Ok conn ->
  conn_cursor bare conn = Ok cur ->
  cursor_execute bare cur catalog_query = Ok cur' ->
  cursor_fetchall bare cur' = Ok [] ->
  conn_close bare conn = Ok tt ->
  PG_DATABASE failing = PG_DATABASE bare ->
  get_table_schemas failing = get_table_schemas bare /\
  schema_info failing = schema_info bare /\
  contents (schema_text (get_table_schemas failing)) question =
  contents (schema_text (get_table_schemas bare)) question.
Proof.
  intros Hfail Hc Hcur Hex Hf Hcl Hdb.
  assert (Hsame : get_table_schemas failing = get_table_schemas bare).
  { rewrite (get_table_schemas_swallows failing e Hfail).
    unfold get_table_schemas. step Hc. step Hcur. step Hex. step Hf.
    now rewrite Hcl. }
  split; [exact Hsame|]. split.
  - unfold schema_info. now rewrite Hsame, Hdb.
  - now rewrite Hsame.
Qed.

Lemma empty_catalog_looks_like_failure_witness :
  get_table_schemas offline_env = get_table_schemas bare_env /\
  schema_info offline_env = schema_info bare_env.
Proof.
  destruct (empty_catalog_looks_like_failure offline_env bare_env
              (Exception "connection refused") tt tt tt "show all customers")
    as (H1 & H2 & _); try reflexivity.
  - apply catalog_connect_fails. reflexivity.
  - split; [exact H1|exact H2].
Defined.

(** X6. A failing catalog fetch does not fail the translation: the model
    is asked with the bare template around the question, and [/query]
    answers with the text of its response. *)
Theorem query_survives_schema_failure
        (env : Environment) (form : form_data) (question : string) (e : exn)
        resp text :
  catalog_failure env e ->
  form_getitem form "user_input" = Ok question ->
  generate_content env "gemini-1.5-flash"
    (prompt_head ++ prompt_middle ++ question ++ prompt_tail) = Ok resp ->
  response_text env resp = Ok text ->
  generate_sql env question = (text, None) /\
  query env form = Ok (jsonify (JObj [("sql_query", json_of_optstr text)])).
Proof.
  intros Hfail Hform Hgen Htext.
  assert (Hsql : generate_sql env question = (text, None)).
  { rewrite generate_sql_sends_prompt.
    rewrite (get_table_schemas_swallows env e Hfail).
    change (spec_schema_block (PyDict.items PyDict.empty)) with "".
    change ("" ++ prompt_middle ++ question ++ prompt_tail)
      with (prompt_middle ++ question ++ prompt_tail).
    step Hgen. now rewrite Htext. }
  split; [exact Hsql|].
  unfold query. rewrite Hform. cbn [bind]. now rewrite Hsql.
Qed.

Lemma query_survives_schema_failure_witness :
  query restricted_env [("user_input", "how many orders")] =
    Ok (jsonify (JObj [("sql_query", JStr "SELECT 1;")])).
Proof.
  apply (query_survives_schema_failure restricted_env
           [("user_input", "how many orders")] "how many orders"
           (Exception "permission denied") "SELECT 1;" (Some "SELECT 1;"));
    try reflexivity.
  apply (catalog_execute_fails restricted_env _ tt tt); reflexivity.
Defined.

(** * Further properties of the schema inspector *)

Lemma mem_existsb {V : Type} (d : PyDict.t V) (k : string) :
  PyDict.mem d k = existsb (String.eqb k) (PyDict.keys d).
Proof.
  unfold PyDict.mem, PyDict.keys.
  induction d as [|[k' v] d IH]; simpl; auto.
  rewrite (String.eqb_sym k k'). destruct (k' =? k); auto.
Qed.

Lemma keys_set_label {V : Type} (d : PyDict.t V) (k : string) (v : V) :
  PyDict.keys (PyDict.set d k v) = add_label (PyDict.keys d) k.
Proof. rewrite keys_set, mem_existsb. reflexivity. Qed.

Lemma filter_refined {A : Type} (P Q R : A -> bool) (l : list A) :
  (forall y, R y = (Q y && P y)%bool) ->
  filter R l = filter P (filter Q l).
Proof.
  intros H. induction l as [|a l IH]; simpl; auto.
  rewrite H. destruct (Q a); simpl; [destruct (P a)|]; now rewrite IH.
Qed.

(** Adding labels one by one keeps the known ones and appends the new
    ones at their first occurrence. *)
Lemma add_labels_first_occurrences (l : list string) :
  forall labels,
    fold_left add_label l labels =
    (labels ++ filter (fun y => negb (existsb (String.eqb y) labels))
                      (first_occurrences l))%list.
Proof.
  induction l as [|x l IH]; intros labels; cbn [fold_left first_occurrences].
  - simpl. now rewrite app_nil_r.
  - rewrite IH. unfold add_label. cbn [filter].
    destruct (existsb (String.eqb x) labels) eqn:Hx; cbn [negb].
    + f_equal. apply filter_refined. intros y.
      destruct (existsb (String.eqb y) labels) eqn:Hy; cbn [negb].
      * now rewrite andb_false_r.
      * rewrite andb_true_r. destruct (x =? y) eqn:E; auto.
        apply String.eqb_eq in E. subst y. congruence.
    + rewrite <- app_assoc. cbn [app]. do 2 f_equal.
      apply filter_refined. intros y.
      rewrite existsb_app. cbn [existsb]. rewrite orb_false_r.
      rewrite (String.eqb_sym y x).
      destruct (existsb (String.eqb y) labels), (x =? y); reflexivity.
Qed.

Lemma filter_all {A : Type} (l : list A) : filter (fun _ => true) l = l.
Proof. induction l as [|a l IH]; simpl; [reflexivity|now rewrite IH]. Qed.

Lemma collect_rows_keys (rows : list (string * string * string)) :
  forall d d' : SchemaMap,
    collect_rows d rows = Ok d' ->
    PyDict.keys d' = fold_left add_label (map table_of rows) (PyDict.keys d).
Proof.
  induction rows as [|[[table column] datatype] rows IH]; intros d d' H.
  - simpl in H. now injection H as <-.
  - cbn [collect_rows] in H. rewrite collect_row_appends in H. cbn [bind] in H.
    rewrite (IH _ _ H). cbn [map fold_left table_of]. now rewrite keys_set_label.
Qed.

(** A dict is the list of its keys, each with the value found under it. *)
Lemma dict_of_lookups {V : Type} (d : PyDict.t V) (f : string -> V) :
  NoDup (PyDict.keys d) ->
  (forall k, In k (PyDict.keys d) -> PyDict.get d k = Some (f k)) ->
  d = map (fun k => (k, f k)) (PyDict.keys d).
Proof.
  induction d as [|[k v] d IH]; intros Hnd Hget; simpl; auto.
  inversion Hnd as [|? ? Hnotin Hnd']; subst.
  f_equal.
  - specialize (Hget k (or_introl eq_refl)). simpl in Hget.
    rewrite String.eqb_refl in Hget. now injection Hget as ->.
  - apply IH; auto. intros k' Hk'.
    specialize (Hget k' (or_intror Hk')). simpl in Hget.
    destruct (k =? k') eqn:E; auto.
    apply String.eqb_eq in E. subst k'. contradiction.
Qed.

Lemma get_table_schemas_runs_loop (env : Environment) conn cur cur' rows :
  psycopg2_connect env = Ok conn ->
  conn_cursor env conn = Ok cur ->
  cursor_execute env cur catalog_query = Ok cur' ->
  cursor_fetchall env cur' = Ok rows ->
  conn_close env conn = Ok tt ->
  collect_rows PyDict.empty rows = Ok (get_table_schemas env).
Proof.
  intros Hc Hcur Hex Hf Hcl. unfold get_table_schemas.
  step Hc. step Hcur. step Hex. step Hf.
  destruct (collect_rows_groups rows PyDict.empty) as (d' & Hrun & _).
  rewrite Hrun. simpl. now rewrite Hcl.
Qed.

(** The schema map of a successful fetch, entry by entry. *)
Lemma get_table_schemas_by_first_appearance (env : Environment) conn cur cur' rows :
  psycopg2_connect env = Ok conn ->
  conn_cursor env conn = Ok cur ->
  cursor_execute env cur catalog_query = Ok cur' ->
  cursor_fetchall env cur' = Ok rows ->
  conn_close env conn = Ok tt ->
  get_table_schemas env =
    map (fun t => (t, catalog_columns rows t)) (first_occurrences (map table_of rows)).
Proof.
  intros Hc Hcur Hex Hf Hcl.
  pose proof (get_table_schemas_runs_loop env conn cur cur' rows Hc Hcur Hex Hf Hcl) as Hrun.
  destruct (get_table_schemas_groups env conn cur cur' rows Hc Hcur Hex Hf Hcl)
    as [Hnd Hget].
  assert (Hkeys : PyDict.keys (get_table_schemas env) =
                  first_occurrences (map table_of rows)).
  { rewrite (collect_rows_keys rows _ _ Hrun), add_labels_first_occurrences.
    cbn [PyDict.keys PyDict.empty map app existsb negb]. apply filter_all. }
  rewrite <- Hkeys. apply dict_of_lookups; [exact Hnd|].
  intros k Hk. rewrite Hget.
  destruct (existsb _ rows) eqn:Ex; [reflexivity|].
  exfalso. pose proof (Hget k) as Hk'. rewrite Ex in Hk'.
  apply get_None_keys in Hk'. contradiction.
Qed.

(** X7. When the catalog fetch succeeds, the schema map, and with it the
    [tables] list of [/schema_info], has one entry per table of the
    catalog, in the order the tables first appear among the catalog rows,
    however the rows of different tables interleave; each entry holds the
    descriptors of its table in catalog order. *)
Theorem schema_info_lists_tables_by_first_appearance
        (env : Environment) conn cur cur' rows :
  psycopg2_connect env = Ok conn ->
  conn_cursor env conn = Ok cur ->
  cursor_execute env cur catalog_query = Ok cur' ->
  cursor_fetchall env cur' = Ok rows ->
  conn_close env conn = Ok tt ->
  get_table_schemas env =
    map (fun t => (t, catalog_columns rows t)) (first_occurrences (map table_of rows)) /\
  schema_info env =
    jsonify (JObj [("database", JStr (PG_DATABASE env));
                   ("tables",
                    JArr (map (fun t => table_entry t (catalog_columns rows t))
                              (first_occurrences (map table_of rows))))]).
Proof.
  intros Hc Hcur Hex Hf Hcl.
  pose proof (get_table_schemas_by_first_appearance env conn cur cur' rows
                Hc Hcur Hex Hf Hcl) as Hmap.
  split; [exact Hmap|].
  unfold schema_info, PyDict.items. rewrite Hmap, map_map. reflexivity.
Qed.

Lemma schema_info_lists_tables_by_first_appearance_witness :
  get_table_schemas interleaved_env =
    [("orders", ["id (int)"; "customer_id (int)"]);
     ("customers", ["id (int)"; "name (text)"])].
Proof.
  exact (proj1 (schema_info_lists_tables_by_first_appearance interleaved_env tt []
                  interleaved_catalog interleaved_catalog
                  eq_refl eq_refl eq_refl eq_refl eq_refl)).
Defined.

Lemma set_appends_one (d : SchemaMap) (t x : string) :
  Permutation (concat (map snd (PyDict.set d t (known_columns d t ++ [x])%list)))
              (concat (map snd d) ++ [x]).
Proof.
  unfold known_columns. induction d as [|[k v] d IH]; simpl.
  - reflexivity.
  - destruct (k =? t) eqn:E; simpl.
    + rewrite <- !app_assoc. apply Permutation_app_head. apply Permutation_app_comm.
    + rewrite <- app_assoc. apply Permutation_app_head. exact IH.
Qed.

Lemma collect_rows_keeps_descriptors (rows : list (string * string * string)) :
  forall d d' : SchemaMap,
    collect_rows d rows = Ok d' ->
    Permutation (concat (map snd d')) (concat (map snd d) ++ map descriptor_of rows).
Proof.
  induction rows as [|[[table column] datatype] rows IH]; intros d d' H.
  - simpl in H. injection H as <-. simpl. now rewrite app_nil_r.
  - cbn [collect_rows] in H. rewrite collect_row_appends in H. cbn [bind] in H.
    rewrite (IH _ _ H). rewrite set_appends_one, <- app_assoc. reflexivity.
Qed.

(** X8. The grouping loses and repeats nothing: the descriptors held by
    the schema map, all tables together, are the descriptors of the
    catalog rows up to their order, so there are as many of them as
    catalog rows. *)
Theorem get_table_schemas_keeps_every_descriptor
        (env : Environment) conn cur cur' rows :
  psycopg2_connect env = Ok conn ->
  conn_cursor env conn = Ok cur ->
  cursor_execute env cur catalog_query = Ok cur' ->
  cursor_fetchall env cur' = Ok rows ->
  conn_close env conn = Ok tt ->
  Permutation (concat (map snd (PyDict.items (get_table_schemas env))))
              (map descriptor_of rows) /\
  length (concat (map snd (PyDict.items (get_table_schemas env)))) = length rows.
Proof.
  intros Hc Hcur Hex Hf Hcl.
  pose proof (get_table_schemas_runs_loop env conn cur cur' rows Hc Hcur Hex Hf Hcl) as Hrun.
  apply collect_rows_keeps_descriptors in Hrun. simpl in Hrun.
  unfold PyDict.items. split; [exact Hrun|].
  rewrite (Permutation_length Hrun). apply length_map.
Qed.

Lemma get_table_schemas_keeps_every_descriptor_witness :
  length (concat (map snd (PyDict.items (get_table_schemas sample_env)))) = 4.
Proof.
  exact (proj2 (get_table_schemas_keeps_every_descriptor sample_env tt []
                  sample_catalog sample_catalog eq_refl eq_refl eq_refl eq_refl eq_refl)).
Defined.

(** * Further properties of the query executor *)

Lemma get_app {V : Type} (d1 d2 : PyDict.t V) (k : string) :
  PyDict.get (d1 ++ d2)%list k =
  match PyDict.get d1 k with
  | Some v => Some v
  | None => PyDict.get d2 k
  end.
Proof.
  induction d1 as [|[k' v] d1 IH]; simpl; auto.
  destruct (k' =? k); auto.
Qed.

(** Looking a key up in a dict built from pairs finds the last pair of
    that key. *)
Lemma get_fold_set {V : Type} (pairs : list (string * V)) :
  forall (d : PyDict.t V) (k : string),
    PyDict.get (fold_left (fun d kv => PyDict.set d (fst kv) (snd kv)) pairs d) k =
    match PyDict.get (rev pairs) k with
    | Some v => Some v
    | None => PyDict.get d k
    end.
Proof.
  induction pairs as [|[k' v'] pairs IH]; intros d k; cbn [fold_left rev fst snd].
  - reflexivity.
  - rewrite IH, get_app. destruct (PyDict.get (rev pairs) k); auto.
    simpl. destruct (k' =? k) eqn:E.
    + apply String.eqb_eq in E. subst k'. apply get_set_same.
    + apply String.eqb_neq in E. now apply get_set_other.
Qed.

Lemma NoDup_keys_fold_set {V : Type} (pairs : list (string * V)) :
  forall d : PyDict.t V,
    NoDup (PyDict.keys d) ->
    NoDup (PyDict.keys (fold_left (fun d kv => PyDict.set d (fst kv) (snd kv)) pairs d)).
Proof.
  induction pairs as [|[k v] pairs IH]; intros d Hnd; cbn [fold_left]; auto.
  apply IH. now apply NoDup_keys_set.
Qed.

Lemma keys_fold_set_length {V : Type} (pairs : list (string * V)) :
  forall d : PyDict.t V,
    length (PyDict.keys (fold_left (fun d kv => PyDict.set d (fst kv) (snd kv)) pairs d))
    <= length (PyDict.keys d) + length pairs.
Proof.
  induction pairs as [|[k v] pairs IH]; intros d; cbn [fold_left fst snd].
  - simpl. lia.
  - specialize (IH (PyDict.set d k v)). rewrite keys_set in IH.
    destruct (PyDict.mem d k); [|rewrite length_app in IH]; simpl in *; lia.
Qed.

(** X9. The mapping of a row holds each label once.  Where the frame
    repeats a label, the cell of the last column under that label is the
    one kept and the cells of the earlier ones are dropped, so a row
    mapping can have fewer entries than the result has columns. *)
Theorem row_mapping_last_label_wins (env : Environment) sql conn df :
  psycopg2_connect env = Ok conn ->
  pd_read_sql_query env sql conn = Ok df ->
  conn_close env conn = Ok tt ->
  exists r,
    execute_query env sql = (Some r, None) /\
    forall i row record,
      nth_error (df_rows df) i = Some row ->
      nth_error (data r) i = Some record ->
      NoDup (PyDict.keys record) /\
      length (PyDict.keys record) <= length (columns r) /\
      forall k, PyDict.get record k = PyDict.get (rev (combine (df_columns df) row)) k.
Proof.
  intros Hc Hread Hclose.
  rewrite (execute_query_success env sql conn df Hc Hread Hclose).
  eexists. split; [reflexivity|]. cbn [columns data].
  intros i row record Hrow Hrec. unfold to_dict_records in Hrec.
  rewrite nth_error_map, Hrow in Hrec. injection Hrec as <-.
  unfold PyDict.of_pairs. split; [|split].
  - apply NoDup_keys_fold_set. constructor.
  - pose proof (keys_fold_set_length (combine (df_columns df) row) PyDict.empty) as H.
    rewrite length_combine in H. simpl in H. lia.
  - intros k. rewrite get_fold_set.
    destruct (PyDict.get (rev (combine (df_columns df) row)) k); reflexivity.
Qed.

Lemma row_mapping_last_label_wins_witness :
  execute_query bare_env "SELECT 1 AS x, 2 AS x" =
    (Some {| columns := ["x"; "x"]; data := [[("x", PInt 2)]] |}, None) /\
  PyDict.get [("x", PInt 2)] "x" = Some (PInt 2).
Proof.
  destruct (row_mapping_last_label_wins bare_env "SELECT 1 AS x, 2 AS x" tt
              {| df_columns := ["x"; "x"]; df_rows := [[PInt 1; PInt 2]] |}
              eq_refl eq_refl eq_refl) as (r & Hq & Hrows).
  assert (Hr : r = {| columns := ["x"; "x"]; data := [[("x", PInt 2)]] |}).
  { simpl in Hq. now injection Hq as <-. }
  subst r. split; [exact Hq|].
  destruct (Hrows 0 [PInt 1; PInt 2] [("x", PInt 2)] eq_refl eq_refl) as (_ & _ & Hget).
  exact (Hget "x").
Defined.

(** * The database calls of a request *)

Lemma get_table_schemas_of_calls (env : Environment) :
  get_table_schemas env =
  try_except (snd (get_table_schemas_calls env)) (fun _ => PyDict.empty).
Proof.
  unfold get_table_schemas, get_table_schemas_calls, call, local, bindT.
  destruct (psycopg2_connect env) as [conn|e]; [|reflexivity]. cbn [bind].
  destruct (conn_cursor env conn) as [cur|e]; [|reflexivity]. cbn [bind].
  destruct (cursor_execute env cur catalog_query) as [cur'|e]; [|reflexivity]. cbn [bind].
  destruct (cursor_fetchall env cur') as [rows|e]; [|reflexivity]. cbn [bind].
  destruct (collect_rows PyDict.empty rows) as [d|e]; [|reflexivity]. cbn [bind].
  destruct (conn_close env conn) as [[]|e]; reflexivity.
Qed.

Lemma execute_query_of_calls (env : Environment) (sql : string) :
  execute_query env sql =
  try_except (snd (execute_query_calls env sql))
             (fun e => (None, Some ("Error executing query: " ++ str e))).
Proof.
  unfold execute_query, execute_query_calls, call, local, bindT.
  destruct (psycopg2_connect env) as [conn|e]; [|reflexivity]. cbn [bind].
  destruct (pd_read_sql_query env sql conn) as [df|e]; [|reflexivity]. cbn [bind].
  destruct (conn_close env conn) as [[]|e]; reflexivity.
Qed.

(** X10. [get_table_schemas] closes the connection only on the way of
    success: [close] is called exactly when connecting, opening the
    cursor, running the catalog query and fetching all returned, and then
    it is the last of five calls.  A connection that was opened is left
    open when a later step raises. *)
Theorem get_table_schemas_closes_only_on_success (env : Environment) :
  (In CLOSE (fst (get_table_schemas_calls env)) <->
   exists conn cur cur' rows,
     psycopg2_connect env = Ok conn /\
     conn_cursor env conn = Ok cur /\
     cursor_execute env cur catalog_query = Ok cur' /\
     cursor_fetchall env cur' = Ok rows) /\
  (In CLOSE (fst (get_table_schemas_calls env)) ->
   fst (get_table_schemas_calls env) =
     [CONNECT; CURSOR; EXECUTE catalog_query; FETCHALL; CLOSE]) /\
  (forall conn,
      psycopg2_connect env = Ok conn ->
      (forall cur cur' rows,
          conn_cursor env conn = Ok cur ->
          cursor_execute env cur catalog_query = Ok cur' ->
          cursor_fetchall env cur' = Ok rows -> False) ->
      In CONNECT (fst (get_table_schemas_calls env)) /\
      ~ In CLOSE (fst (get_table_schemas_calls env))) /\
  get_table_schemas env =
    try_except (snd (get_table_schemas_calls env)) (fun _ => PyDict.empty).
Proof.
  assert (Hiff : (In CLOSE (fst (get_table_schemas_calls env)) <->
                  exists conn cur cur' rows,
                    psycopg2_connect env = Ok conn /\
                    conn_cursor env conn = Ok cur /\
                    cursor_execute env cur catalog_query = Ok cur' /\
                    cursor_fetchall env cur' = Ok rows) /\
                 (In CLOSE (fst (get_table_schemas_calls env)) ->
                  fst (get_table_schemas_calls env) =
                    [CONNECT; CURSOR; EXECUTE catalog_query; FETCHALL; CLOSE]) /\
                 (forall conn, psycopg2_connect env = Ok conn ->
                               In CONNECT (fst (get_table_schemas_calls env)))).
  { unfold get_table_schemas_calls, call, local, bindT.
    destruct (psycopg2_connect env) as [conn|e] eqn:Hc.
    2:{ split; [split|split]; try (simpl; intuition discriminate).
        intros (? & ? & ? & ? & H & _). discriminate. }
    destruct (conn_cursor env conn) as [cur|e] eqn:Hcur.
    2:{ split; [split|split]; try (simpl; intuition discriminate).
        intros (? & ? & ? & ? & H & H1 & _). injection H as <-.
        rewrite Hcur in H1. discriminate. }
    destruct (cursor_execute env cur catalog_query) as [cur'|e] eqn:Hex.
    2:{ split; [split|split]; try (simpl; intuition discriminate).
        intros (? & ? & ? & ? & H & H1 & H2 & _). injection H as <-.
        rewrite Hcur in H1. injection H1 as <-. rewrite Hex in H2. discriminate. }
    destruct (cursor_fetchall env cur') as [rows|e] eqn:Hf.
    2:{ split; [split|split]; try (simpl; intuition discriminate).
        intros (? & ? & ? & ? & H & H1 & H2 & H3).
        injection H as <-. rewrite Hcur in H1. injection H1 as <-.
        rewrite Hex in H2. injection H2 as <-. rewrite Hf in H3. discriminate. }
    destruct (collect_rows_groups rows PyDict.empty) as (d' & Hrun & _).
    rewrite Hrun.
    split; [split|split].
    - intros _. exists conn, cur, cur', rows. auto.
    - intros _. destruct (conn_close env conn) as [[]|e]; simpl; auto 10.
    - intros _. destruct (conn_close env conn) as [[]|e]; reflexivity.
    - intros ? _. destruct (conn_close env conn) as [[]|e]; simpl; auto. }
  destruct Hiff as (Hiff & Hlog & Hconnect).
  split; [exact Hiff|]. split; [exact Hlog|].
  split; [|apply get_table_schemas_of_calls].
  intros conn Hc Hlater. split; [now apply (Hconnect conn)|].
  intros Hclose. apply Hiff in Hclose.
  destruct Hclose as (conn' & cur & cur' & rows & Hc' & Hcur & Hex & Hf).
  rewrite Hc in Hc'. injection Hc' as <-. eauto.
Qed.

Lemma get_table_schemas_closes_only_on_success_witness :
  fst (get_table_schemas_calls restricted_env) = [CONNECT; CURSOR; EXECUTE catalog_query] /\
  ~ In CLOSE (fst (get_table_schemas_calls restricted_env)) /\
  fst (get_table_schemas_calls sample_env) =
    [CONNECT; CURSOR; EXECUTE catalog_query; FETCHALL; CLOSE].
Proof.
  split; [reflexivity|]. split.
  - apply (proj1 (proj2 (proj2 (get_table_schemas_closes_only_on_success restricted_env)))
             tt eq_refl).
    intros cur cur' rows _ H _. discriminate.
  - apply (proj1 (proj2 (get_table_schemas_closes_only_on_success sample_env))).
    simpl. auto 10.
Defined.

(** X11. [execute_query] closes the connection exactly when the
    statement was read: a statement the database refuses is answered with
    the error message, after two calls, and the connection opened for it
    is never closed. *)
Theorem execute_query_closes_only_on_success (env : Environment) (sql : string) :
  (In CLOSE (fst (execute_query_calls env sql)) <->
   exists conn df,
     psycopg2_connect env = Ok conn /\ pd_read_sql_query env sql conn = Ok df) /\
  (forall conn e,
      psycopg2_connect env = Ok conn ->
      pd_read_sql_query env sql conn = Raise e ->
      fst (execute_query_calls env sql) = [CONNECT; READ_SQL sql] /\
      execute_query env sql = (None, Some ("Error executing query: " ++ str e))) /\
  execute_query env sql =
    try_except (snd (execute_query_calls env sql))
               (fun e => (None, Some ("Error executing query: " ++ str e))).
Proof.
  split; [|split; [|apply execute_query_of_calls]].
  - unfold execute_query_calls, call, local, bindT.
    destruct (psycopg2_connect env) as [conn|e] eqn:Hc.
    2:{ split; [simpl; intuition discriminate|].
        intros (? & ? & H & _). discriminate. }
    destruct (pd_read_sql_query env sql conn) as [df|e] eqn:Hr.
    2:{ split; [simpl; intuition discriminate|].
        intros (? & ? & H & H1). injection H as <-. rewrite Hr in H1. discriminate. }
    split.
    + intros _. exists conn, df. auto.
    + intros _. destruct (conn_close env conn) as [[]|e]; simpl; auto.
  - intros conn e Hc Hr. split.
    + unfold execute_query_calls, call, local, bindT. rewrite Hc, Hr. reflexivity.
    + apply execute_query_failure. eapply execution_statement_fails; eauto.
Qed.

Lemma execute_query_closes_only_on_success_witness :
  fst (execute_query_calls restricted_env "DROP TABLE t") = [CONNECT; READ_SQL "DROP TABLE t"] /\
  execute_query restricted_env "DROP TABLE t" =
    (None, Some "Error executing query: permission denied").
Proof.
  apply (proj1 (proj2 (execute_query_closes_only_on_success restricted_env "DROP TABLE t"))
           tt (Exception "permission denied")); reflexivity.
Defined.

(** * The page's script *)

Lemma firstn_of_truncated {U : Type} (n : nat) (text dots : list U) :
  n <= length text ->
  firstn n (firstn n text ++ dots) = firstn n text.
Proof.
  intros H. rewrite firstn_app, length_firstn.
  replace (n - Nat.min n (length text)) with 0 by lia.
  rewrite firstn_firstn, Nat.min_id. simpl. apply app_nil_r.
Qed.

(** X12. [truncateText] never returns more than [maxLength] code units
    followed by the three full stops, returns a text that fits as it is,
    and keeps the first [maxLength] code units of every text: with the
    arguments of the history panel, a question shows on at most 43 code
    units and a query on at most 63. *)
Theorem truncateText_bounded_prefix
        {U : Type} (full_stop : U) (text : list U) (maxLength : Z) :
  length (truncateText full_stop text maxLength) <= Z.to_nat maxLength + 3 /\
  firstn (Z.to_nat maxLength) (truncateText full_stop text maxLength) =
    firstn (Z.to_nat maxLength) text /\
  ((Z.of_nat (length text) <= maxLength)%Z ->
   truncateText full_stop text maxLength = text) /\
  length (truncateText full_stop text 40) <= 43 /\
  length (truncateText full_stop text 60) <= 63.
Proof.
  assert (Hlen : forall m : Z,
             length (truncateText full_stop text m) <= Z.to_nat m + 3).
  { intros m. unfold truncateText.
    destruct (Z.gtb_spec (Z.of_nat (length text)) m) as [Hgt|Hle].
    - rewrite length_app, length_firstn. simpl. lia.
    - lia. }
  split; [apply Hlen|]. split; [|split; [|split]].
  - unfold truncateText.
    destruct (Z.gtb_spec (Z.of_nat (length text)) maxLength) as [Hgt|Hle]; auto.
    apply firstn_of_truncated. lia.
  - intros Hfit. unfold truncateText.
    destruct (Z.gtb_spec (Z.of_nat (length text)) maxLength) as [Hgt|Hle]; auto.
    lia.
  - exact (Hlen 40%Z).
  - exact (Hlen 60%Z).
Qed.

(** X13. Truncating twice to the same length is truncating once: the
    full stops are not counted against the length that was asked for, and
    a second pass cuts them off and puts them back. *)
Theorem truncateText_idempotent
        {U : Type} (full_stop : U) (text : list U) (maxLength : Z) :
  truncateText full_stop (truncateText full_stop text maxLength) maxLength =
  truncateText full_stop text maxLength.
Proof.
  unfold truncateText.
  destruct (Z.gtb_spec (Z.of_nat (length text)) maxLength) as [Hgt|Hle].
  - destruct (Z.gtb_spec
                (Z.of_nat (length (firstn (Z.to_nat maxLength) text ++
                                   [full_stop; full_stop; full_stop])%list))
                maxLength) as [Hgt'|Hle'].
    + f_equal. apply firstn_of_truncated. lia.
    + rewrite length_app, length_firstn in Hle'. simpl in Hle'. lia.
  - destruct (Z.gtb_spec (Z.of_nat (length text)) maxLength) as [Hgt'|Hle']; auto.
    lia.
Qed.

(** * From the catalog to the prompt *)

(** X14. What the model is asked follows the catalog: after a successful
    fetch the schema block of the prompt has one line per table, in order
    of first appearance, listing the descriptors of the table in catalog
    order, and [generate_sql] returns the text the model gives for that
    prompt. *)
Theorem generate_sql_asks_with_catalog
        (env : Environment) (question : string) conn cur cur' rows resp text :
  psycopg2_connect env = Ok conn ->
  conn_cursor env conn = Ok cur ->
  cursor_execute env cur catalog_query = Ok cur' ->
  cursor_fetchall env cur' = Ok rows ->
  conn_close env conn = Ok tt ->
  generate_content env "gemini-1.5-flash"
    (prompt_head ++
     spec_schema_block
       (map (fun t => (t, catalog_columns rows t)) (first_occurrences (map table_of rows))) ++
     prompt_middle ++ question ++ prompt_tail) = Ok resp ->
  response_text env resp = Ok text ->
  generate_sql env question = (text, None).
Proof.
  intros Hc Hcur Hex Hf Hcl Hgen Htext.
  rewrite generate_sql_sends_prompt.
  rewrite (get_table_schemas_by_first_appearance env conn cur cur' rows
             Hc Hcur Hex Hf Hcl).
  unfold PyDict.items. step Hgen. now rewrite Htext.
Qed.

Lemma generate_sql_asks_with_catalog_witness :
  spec_schema_block
    (map (fun t => (t, catalog_columns sample_catalog t))
         (first_occurrences (map table_of sample_catalog))) =
    "Table customers: id (int), name (text)" ++ LF ++
    "Table orders: id (int), customer_id (int)" /\
  generate_sql sample_env "show all customers" = (Some "SELECT * FROM customers;", None).
Proof.
  split; [reflexivity|].
  apply (generate_sql_asks_with_catalog sample_env "show all customers" tt []
           sample_catalog sample_catalog "SELECT * FROM customers;"
           (Some "SELECT * FROM customers;")); reflexivity.
Defined.
